(** * TODO backend: credential service, todo API and the plan-tomorrow engine

    A shallow embedding of the Express/Mongoose backend:
    - [middleware/auth.js]   the [auth] middleware (token check),
    - [routes/todoRoutes.js] the todo CRUD routes and [POST /plan-tomorrow],
    - [routes/auth.js]       the verification / registration / reset routes,
    - [models/User.js]       the user schema,
    - [server.js]            the midnight cron job.

    Collections are lists of documents in natural (insertion) order, each
    document carrying its [_id].  Instants are milliseconds since the
    epoch, as [Z].  Handlers are pure functions from the request, the
    inputs drawn from the environment (clock, random code, mail outcome)
    and the collection to a reply and the new collection.  Persistence
    calls are taken to succeed; a handler's [catch] branch is therefore
    modelled only where the handler itself can throw. *)

From Stdlib Require Import ZArith Lia.
From Stdlib Require Qcanon.
From stdpp Require Import base numbers option list sorting strings gmap fin_maps.

Local Open Scope Z_scope.
Local Open Scope string_scope.
Local Open Scope list_scope.

(** ** Identifiers and time *)

(** Mongo [ObjectId]s, abstracted to numbers. *)
Definition ObjectId := nat.
Bind Scope nat_scope with ObjectId.

Definition msPerDay : Z := 24 * 60 * 60 * 1000.

(** Local time is UTC shifted by a fixed offset [tz] (milliseconds); no
    daylight-saving jumps. *)

(** [new Date(ms).getDay()]: 0 = Sunday; 1 January 1970 was a Thursday. *)
Definition getDay (tz ms : Z) : nat :=
  Z.to_nat (((ms + tz) `div` msPerDay + 4) `mod` 7).

(** [d = new Date(now); d.setDate(d.getDate() + 1); d.setHours(0,0,0,0)]. *)
Definition startOfTomorrow (tz now : Z) : Z :=
  ((now + tz) `div` msPerDay + 1) * msPerDay - tz.

(** ** The todo model *)

Inductive Priority := Low | Medium | High.

Global Instance Priority_eq_dec : EqDecision Priority.
Proof. solve_decision. Defined.

Module Todo.
(** Modelled from the spec: [models/todoModel.js] is not part of the
    sources; the fields are those of the data model (section 3) and of
    the route code that reads and writes them. *)
Record t := mk {
  _id : ObjectId;
  user : ObjectId;
  title : string;
  completed : bool;
  completedAt : option Z;
  dueDate : option Z;
  priority : Priority;
  tags : list string;
  category : string;
  notes : string;
  createdAt : option Z
}.

Definition set_dueDate (d : option Z) (x : t) : t :=
  mk (_id x) (user x) (title x) (completed x) (completedAt x) d
     (priority x) (tags x) (category x) (notes x) (createdAt x).

Global Instance eq_dec : EqDecision t.
Proof. solve_decision. Defined.
End Todo.

(** The [Todo] collection. *)
Abbreviation TodoDb := (list Todo.t).

Definition ids (db : TodoDb) : list ObjectId := Todo._id <$> db.

(** ** Planning analysis ([POST /plan-tomorrow], first half) *)

(** The value stored per category: [{ count, totalTime }]. *)
Record CategoryStats := mkStats { count : nat; totalTime : Z }.

Record Tally := mkTally {
  completionByDay : gmap nat nat;
  completionByCategory : gmap string CategoryStats
}.

(** [todo.category || 'general'] *)
Definition categoryOrGeneral (x : Todo.t) : string :=
  if decide (Todo.category x = "") then "general" else Todo.category x.

(** The names every JavaScript object inherits from [Object.prototype].
    [completionByCategory] is a plain [{}]: read under one of these names
    it yields the inherited function or object, which is truthy. *)
Definition inheritedNames : list string :=
  [ "constructor"; "__proto__"; "hasOwnProperty"; "isPrototypeOf";
    "propertyIsEnumerable"; "toLocaleString"; "toString"; "valueOf";
    "__defineGetter__"; "__defineSetter__"; "__lookupGetter__";
    "__lookupSetter__" ].

(** The body of [completedTodos.forEach(todo => ...)].  For a category
    that is an inherited name, [!completionByCategory[category]] is false,
    no entry is created, and the two updates land on the inherited value:
    the histogram by category stays as it is. *)
Definition tallyTodo (tz : Z) (acc : Tally) (todo : Todo.t) : Tally :=
  match Todo.completedAt todo, Todo.createdAt todo with
  | Some doneAt, Some madeAt =>
      let day := getDay tz doneAt in
      let byDay :=
        <[day := (default 0 (completionByDay acc !! day) + 1)%nat]>
          (completionByDay acc) in
      let category := categoryOrGeneral todo in
      let entry :=
        default (mkStats 0 0) (completionByCategory acc !! category) in
      let completionTime := doneAt - madeAt in
      let byCategory :=
        if decide (category ∈ inheritedNames)
        then completionByCategory acc
        else
          <[category := mkStats (count entry + 1)
                                (totalTime entry + completionTime)]>
            (completionByCategory acc) in
      mkTally byDay byCategory
  | _, _ => acc
  end.

Definition tallyAll (tz : Z) (completedTodos : TodoDb) : Tally :=
  foldl (tallyTodo tz) (mkTally ∅ ∅) completedTodos.

(** [averageCompletionTimes[category] = count > 0 ? totalTime / count : 0],
    as an exact rational (the source holds the nearest double). *)
Definition averageOf (s : CategoryStats) : Qcanon.Qc :=
  if decide (0 < count s)%nat
  then Qcanon.Qcdiv (Qc_of_Z (totalTime s)) (Qc_of_Z (Z.of_nat (count s)))
  else Qc_of_Z 0.

(** [Object.keys(completionByDay)]: the keys are integer indices, which a
    JavaScript object enumerates in ascending numeric order whatever the
    order in which they were added. *)
Definition objectKeys (byDay : gmap nat nat) : list nat :=
  merge_sort Nat.le (map_to_list byDay).*1.

(** The body of [Object.keys(completionByDay).forEach(day => ...)], on the
    pair [(mostProductiveDay, highestCompletions)]. *)
Definition pickDay (byDay : gmap nat nat) (st : nat * nat) (day : nat)
  : nat * nat :=
  let c := default 0%nat (byDay !! day) in
  if decide (st.2 < c)%nat then (day, c) else st.

Definition findMostProductiveDay (byDay : gmap nat nat) : nat :=
  (foldl (pickDay byDay) (0%nat, 0%nat) (objectKeys byDay)).1.

Record Analysis := mkAnalysis {
  mostProductiveDay : nat;
  analysisByCategory : gmap string CategoryStats;
  averageCompletionTimes : gmap string Qcanon.Qc
}.

Definition analyse (tz : Z) (completedTodos : TodoDb) : Analysis :=
  let tally := tallyAll tz completedTodos in
  mkAnalysis (findMostProductiveDay (completionByDay tally))
             (completionByCategory tally)
             (averageOf <$> completionByCategory tally).

(** The weekday on which a todo was completed, for a todo that has both
    a completion and a creation timestamp. *)
Definition completionDay (tz : Z) (x : Todo.t) : option nat :=
  match Todo.completedAt x, Todo.createdAt x with
  | Some doneAt, Some _ => Some (getDay tz doneAt)
  | _, _ => None
  end.

(** The number of completions that fall on weekday [d], counted directly
    over the completed todos that have both timestamps. *)
Definition completionsOn (tz : Z) (d : nat) (completedTodos : TodoDb) : nat :=
  length (filter (λ x, completionDay tz x = Some d) completedTodos).

(** ** Tokens and the [auth] middleware ([middleware/auth.js]) *)

(** A header value is either a token made by [jwt.sign] or any other text
    (possibly empty), which [jwt.verify] rejects. *)
Inductive Token :=
  | Signed (secret : string) (userId : ObjectId) (expiresAt : Z)
  | Malformed (raw : string).

Record Env := mkEnv { JWT_SECRET : option string }.

Definition msPerHour : Z := 60 * 60 * 1000.

(** [jwt.sign({ userId }, process.env.JWT_SECRET, { expiresIn: '24h' })];
    it throws when the secret is undefined or empty.  The token counts in
    whole seconds: it is issued at the clock rounded down to the second
    and expires 24 hours after that. *)
Definition jwt_sign (env : Env) (now : Z) (userId : ObjectId) : option Token :=
  match JWT_SECRET env with
  | Some secret =>
      if decide (secret = "") then None
      else Some (Signed secret userId
                   (now `div` 1000 * 1000 + 24 * msPerHour))
  | None => None
  end.

(** [jwt.verify(token, secret)]: the decoded [userId], or a throw. *)
Definition jwt_verify (secret : string) (now : Z) (token : Token)
  : option ObjectId :=
  match token with
  | Signed s userId expiresAt =>
      if decide (s = secret ∧ now < expiresAt) then Some userId else None
  | Malformed _ => None
  end.

(** [process.env.JWT_SECRET || 'your_jwt_secret'] *)
Definition verifySecret (env : Env) : string :=
  match JWT_SECRET env with
  | Some s => if decide (s = "") then "your_jwt_secret" else s
  | None => "your_jwt_secret"
  end.

(** [!token] on the value of [req.header('auth-token')]. *)
Definition tokenMissing (h : option Token) : bool :=
  match h with
  | None => true
  | Some (Malformed raw) => bool_decide (raw = "")
  | Some (Signed _ _ _) => false
  end.

Record Request (B : Type) := mkReq { authToken : option Token; body : B }.
Arguments mkReq {B} _ _.
Arguments authToken {B} _.
Arguments body {B} _.

(** [req.user = { id: decoded.userId }]: an object with the one property
    [id]. *)
Record ReqUser := mkReqUser { id : ObjectId }.

(** Reading a property of [req.user] by name; a property the object does
    not have reads as [undefined]. *)
Definition reqUserProp (prop : string) (u : ReqUser) : option ObjectId :=
  if decide (prop = "id") then Some (id u) else None.

Inductive AuthOutcome :=
  | Denied (status : nat) (message : string)
  | Next (reqUser : ReqUser).

Definition auth {B} (env : Env) (now : Z) (req : Request B) : AuthOutcome :=
  if tokenMissing (authToken req)
  then Denied 401 "No token, authorization denied"
  else
    match authToken req ≫= jwt_verify (verifySecret env) now with
    | Some userId => Next (mkReqUser userId)
    | None => Denied 401 "Token is not valid"
    end.

(** ** The todo routes ([routes/todoRoutes.js]) *)

Inductive Reply :=
  | Message (status : nat) (message : string)
  | Todos (todos : TodoDb)
  | OneTodo (status : nat) (todo : option Todo.t)
  | AlreadyPlanned (message : string) (tasksExisting : nat)
  | Planned (taskCount : nat) (analysis : Analysis).

(** A route behind [auth]. *)
Definition guarded {B} (env : Env) (now : Z) (req : Request B) (db : TodoDb)
    (handler : ReqUser → Reply * TodoDb) : Reply * TodoDb :=
  match auth env now req with
  | Denied status message => (Message status message, db)
  | Next reqUser => handler reqUser
  end.

(** [Todo.findOne({ _id, user })] *)
Definition findOwned (todoId userId : ObjectId) (db : TodoDb) : option Todo.t :=
  head (filter (λ x, Todo._id x = todoId ∧ Todo.user x = userId) db).

(** An update addressed by [_id] changes the first (and, ids being unique
    in a collection, the only) document with that id. *)
Fixpoint updateById (todoId : ObjectId) (f : Todo.t → Todo.t) (db : TodoDb)
  : TodoDb :=
  match db with
  | [] => []
  | x :: rest =>
      if decide (Todo._id x = todoId) then f x :: rest
      else x :: updateById todoId f rest
  end.

Fixpoint deleteById (todoId : ObjectId) (db : TodoDb) : TodoDb :=
  match db with
  | [] => []
  | x :: rest =>
      if decide (Todo._id x = todoId) then rest
      else x :: deleteById todoId rest
  end.

Definition findById (todoId : ObjectId) (db : TodoDb) : option Todo.t :=
  head (filter (λ x, Todo._id x = todoId) db).

(** *** [GET /] *)
Definition getTodos (env : Env) (now : Z) (req : Request unit) (db : TodoDb)
  : Reply * TodoDb :=
  guarded env now req db (λ u,
    (Todos (filter (λ x, Todo.user x = id u) db), db)).

(** *** [POST /] *)
Module PostBody.
Record t := mk {
  title : option string;
  completed : option bool;
  dueDate : option Z;
  priority : option Priority;
  tags : option (list string);
  category : option string;
  notes : option string
}.
End PostBody.

(** [s || fallback] on an optional string: undefined and the empty string
    are both falsy. *)
Definition orString (s : option string) (fallback : string) : string :=
  match s with
  | Some v => if decide (v = "") then fallback else v
  | None => fallback
  end.

(** [new Todo({...})]: the owner is [req.user.id]; [completedAt] is not
    among the fields given to the constructor.  The new [_id] and the
    [createdAt] default come from the environment. *)
Definition newTodo (freshId : ObjectId) (now : Z) (u : ReqUser)
    (b : PostBody.t) : Todo.t :=
  Todo.mk freshId (id u)
    (default "" (PostBody.title b))
    (default false (PostBody.completed b))
    None
    (PostBody.dueDate b)
    (default Medium (PostBody.priority b))
    (default [] (PostBody.tags b))
    (orString (PostBody.category b) "general")
    (orString (PostBody.notes b) "")
    (Some now).

(** Modelled from the spec: the schema of [models/todoModel.js] is not
    among the sources; [title] is the one field the API lists without a
    question mark, hence required, and [todo.save()] rejects a todo
    without it. *)
Definition validates (b : PostBody.t) : bool :=
  match PostBody.title b with
  | Some v => bool_decide (v ≠ "")
  | None => false
  end.

Definition postTodo (env : Env) (now : Z) (freshId : ObjectId)
    (req : Request PostBody.t) (db : TodoDb) : Reply * TodoDb :=
  guarded env now req db (λ u,
    let todo := newTodo freshId now u (body req) in
    if validates (body req)
    then (OneTodo 201 (Some todo), db ++ [todo])
    else (Message 400 "Todo validation failed", db)).

(** *** [PUT /:id] *)

(** The value a client sends under [completed], as the handler's own
    tests at lines 72-76 see it, before Mongoose casts it: a boolean, a
    number, a string, or an array or object.  (A fractional number
    behaves as any integer other than 0 and 1 does.  An explicit [null]
    is not modelled: it would be stored as a null flag, which the todo
    model does not have.) *)
Inductive JsValue :=
  | JBool (b : bool)
  | JNumber (n : Z)
  | JString (s : string)
  | JCompound.

Global Instance JsValue_eq_dec : EqDecision JsValue.
Proof. solve_decision. Defined.

(** JavaScript truthiness, as in [req.body.completed && ...]. *)
Definition truthy (v : option JsValue) : bool :=
  match v with
  | None => false
  | Some (JBool b) => b
  | Some (JNumber n) => bool_decide (n ≠ 0)
  | Some (JString s) => bool_decide (s ≠ "")
  | Some JCompound => true
  end.

(** Mongoose's cast to [Boolean]: [true, 'true', 1, '1', 'yes'] become
    true, [false, 'false', 0, '0', 'no'] become false, anything else is a
    [CastError]. *)
Definition castBoolean (v : JsValue) : option bool :=
  match v with
  | JBool b => Some b
  | JNumber n =>
      if decide (n = 1) then Some true
      else if decide (n = 0) then Some false else None
  | JString s =>
      if decide (s = "true" ∨ s = "1" ∨ s = "yes") then Some true
      else if decide (s = "false" ∨ s = "0" ∨ s = "no") then Some false
      else None
  | JCompound => None
  end.

Module PutBody.
(** The request body, a flat object of todo fields (no update
    operators), field by field: [None] is an absent key; for the nullable
    dates [Some None] is an explicit [null].  [completed] is the raw
    value the client sent, which the handler itself tests; every other
    key is handed to Mongoose unread and is given by the value it is cast
    to. *)
Record t := mk {
  title : option string;
  completed : option JsValue;
  completedAt : option (option Z);
  dueDate : option (option Z);
  priority : option Priority;
  tags : option (list string);
  category : option string;
  notes : option string;
  user : option ObjectId;
  createdAt : option (option Z)
}.

Definition set_completedAt (v : option (option Z)) (b : t) : t :=
  mk (title b) (completed b) v (dueDate b) (priority b) (tags b)
     (category b) (notes b) (user b) (createdAt b).

Definition empty : t :=
  mk None None None None None None None None None None.
End PutBody.

(** Whether Mongoose can cast the body: [completed], when present, must
    cast to a boolean. *)
Definition castsCleanly (b : PutBody.t) : bool :=
  match PutBody.completed b with
  | Some v => bool_decide (is_Some (castBoolean v))
  | None => true
  end.

(** The update document [req.body], once cast, applied to a stored todo:
    every key present in the body overwrites the field of that name. *)
Definition applyUpdate (b : PutBody.t) (x : Todo.t) : Todo.t :=
  Todo.mk (Todo._id x)
    (default (Todo.user x) (PutBody.user b))
    (default (Todo.title x) (PutBody.title b))
    (default (Todo.completed x) (PutBody.completed b ≫= castBoolean))
    (default (Todo.completedAt x) (PutBody.completedAt b))
    (default (Todo.dueDate x) (PutBody.dueDate b))
    (default (Todo.priority x) (PutBody.priority b))
    (default (Todo.tags x) (PutBody.tags b))
    (default (Todo.category x) (PutBody.category b))
    (default (Todo.notes x) (PutBody.notes b))
    (default (Todo.createdAt x) (PutBody.createdAt b)).

(** The [if (req.body.completed && !todo.completed) ... else if
    (req.body.completed === false) ...] step, which rewrites the body. *)
Definition stampCompletion (now : Z) (todo : Todo.t) (b : PutBody.t)
  : PutBody.t :=
  if decide (truthy (PutBody.completed b) = true
             ∧ Todo.completed todo = false)
  then PutBody.set_completedAt (Some (Some now)) b
  else if decide (PutBody.completed b = Some (JBool false))
  then PutBody.set_completedAt (Some None) b
  else b.

(** [Todo.findByIdAndUpdate] rejects with a [CastError] a body it cannot
    cast, before anything is written; the handler's [catch] answers 400. *)
Definition putTodo (env : Env) (now : Z) (todoId : ObjectId)
    (req : Request PutBody.t) (db : TodoDb) : Reply * TodoDb :=
  guarded env now req db (λ u,
    match findOwned todoId (id u) db with
    | None => (Message 404 "Todo not found", db)
    | Some todo =>
        let b := stampCompletion now todo (body req) in
        if castsCleanly b
        then
          let db' := updateById todoId (applyUpdate b) db in
          (OneTodo 200 (findById todoId db'), db')
        else (Message 400 "Cast to Boolean failed", db)
    end).

(** *** [DELETE /:id] *)
Definition deleteTodo (env : Env) (now : Z) (todoId : ObjectId)
    (req : Request unit) (db : TodoDb) : Reply * TodoDb :=
  guarded env now req db (λ u,
    match findOwned todoId (id u) db with
    | None => (Message 404 "Todo not found", db)
    | Some _ => (Message 200 "Todo deleted", deleteById todoId db)
    end).

(** *** [POST /plan-tomorrow] *)

(** The query [{ dueDate: { $gte: tomorrow, $lt: tomorrow + 24h }, user }]. *)
Definition dueWithin (tomorrow : Z) (userId : ObjectId) (x : Todo.t) : Prop :=
  (∃ d, Todo.dueDate x = Some d ∧ tomorrow ≤ d < tomorrow + msPerDay)
  ∧ Todo.user x = userId.

Global Instance dueWithin_dec tomorrow userId x :
  Decision (dueWithin tomorrow userId x).
Proof.
  unfold dueWithin. destruct (Todo.dueDate x) as [d|].
  - destruct (decide (tomorrow ≤ d < tomorrow + msPerDay
                      ∧ Todo.user x = userId)) as [H|H].
    + left. destruct H as [H1 H2]. split; [exists d; split; [reflexivity|exact H1]|exact H2].
    + right. intros [[d' [E H1]] H2]. injection E as <-. apply H. split; assumption.
  - right. intros [[d' [E _]] _]. discriminate E.
Defined.

(** [task.dueDate = tomorrow; await task.save()]: the document read
    earlier is changed in memory and its one modified path written back
    under its [_id]. *)
Definition saveDueDate (tomorrow : Z) (db : TodoDb) (task : Todo.t) : TodoDb :=
  updateById (Todo._id task) (Todo.set_dueDate (Some tomorrow)) db.

(** [Math.ceil(Math.max(3, n / 7 + 1))] for a count [n]: the ceiling of
    [n / 7 + 1] is [ceil(n / 7) + 1]. *)
Definition optimalTaskCount (n : nat) : nat :=
  Nat.max 3 ((n + 6) / 7 + 1).

Definition planTomorrow (tz now : Z) (u : ReqUser) (db : TodoDb)
  : Reply * TodoDb :=
  let completedTodos :=
    filter (λ x, Todo.completed x = true ∧ Todo.user x = id u) db in
  let pendingTodos :=
    filter (λ x, Todo.completed x = false ∧ Todo.user x = id u) db in
  let analysis := analyse tz completedTodos in
  let tomorrow := startOfTomorrow tz now in
  let existingPlannedTasks := filter (dueWithin tomorrow (id u)) db in
  if decide (0 < length existingPlannedTasks)%nat
  then (AlreadyPlanned "Tasks for tomorrow already exist"
          (length existingPlannedTasks), db)
  else
    let highPriorityTasks :=
      filter (λ x, Todo.priority x = High) pendingTodos in
    let db1 := foldl (saveDueDate tomorrow) db highPriorityTasks in
    let optimal := optimalTaskCount (length completedTodos) in
    let additionalTasksNeeded := (optimal - length highPriorityTasks)%nat in
    let db2 :=
      if decide (0 < additionalTasksNeeded)%nat
      then
        let mediumPriorityTasks :=
          filter (λ x, Todo.priority x = Medium ∧ Todo.dueDate x = None)
                 pendingTodos in
        let tasksToAdd := take additionalTasksNeeded mediumPriorityTasks in
        foldl (saveDueDate tomorrow) db1 tasksToAdd
      else db1 in
    let tomorrowTasks := filter (dueWithin tomorrow (id u)) db2 in
    (Planned (length tomorrowTasks) analysis, db2).

Definition postPlanTomorrow (env : Env) (tz now : Z) (req : Request unit)
    (db : TodoDb) : Reply * TodoDb :=
  guarded env now req db (λ u, planTomorrow tz now u db).

(** The tasks a planning run writes [dueDate = tomorrow] to. *)
Definition assignedTasks (u : ReqUser) (db : TodoDb) : TodoDb :=
  let completedTodos :=
    filter (λ x, Todo.completed x = true ∧ Todo.user x = id u) db in
  let pendingTodos :=
    filter (λ x, Todo.completed x = false ∧ Todo.user x = id u) db in
  let highPriorityTasks := filter (λ x, Todo.priority x = High) pendingTodos in
  let mediumPriorityTasks :=
    filter (λ x, Todo.priority x = Medium ∧ Todo.dueDate x = None)
           pendingTodos in
  highPriorityTasks
  ++ take (optimalTaskCount (length completedTodos) - length highPriorityTasks)
          mediumPriorityTasks.

(** ** The midnight job ([server.js])

    [cron.schedule('0 0 * * *', ...)] sends one
    [fetch(".../api/todos/plan-tomorrow", { method: 'POST' })]: a request
    with no headers and no body, answered by the route above; the job logs
    the reply. *)
Definition cronRequest : Request unit := mkReq None tt.

Definition cronJob (env : Env) (tz now : Z) (db : TodoDb) : Reply * TodoDb :=
  postPlanTomorrow env tz now cronRequest db.

(** A trace of todo API calls, each with what it draws from the
    environment. *)
Inductive TodoCall :=
  | CallPost (now : Z) (freshId : ObjectId) (req : Request PostBody.t)
  | CallPut (now : Z) (todoId : ObjectId) (req : Request PutBody.t)
  | CallDelete (now : Z) (todoId : ObjectId) (req : Request unit)
  | CallPlan (now : Z) (req : Request unit).

Definition todoStep (env : Env) (tz : Z) (db : TodoDb) (c : TodoCall) : TodoDb :=
  match c with
  | CallPost now freshId req => (postTodo env now freshId req db).2
  | CallPut now todoId req => (putTodo env now todoId req db).2
  | CallDelete now todoId req => (deleteTodo env now todoId req db).2
  | CallPlan now req => (postPlanTomorrow env tz now req db).2
  end.


(** ** The user model ([models/User.js]) *)

(** [bcrypt.hash(password, salt)]: the digest, named by the password it
    was made from. *)
Inductive PasswordHash := Bcrypt (plain : string).

(** [fuel] bytes read cyclically from [key], continuing at [rest]. *)
Fixpoint cycleBytes (fuel : nat) (key rest : list Ascii.ascii)
  : list Ascii.ascii :=
  match fuel with
  | O => []
  | S n =>
      match rest with
      | c :: rest' => c :: cycleBytes n key rest'
      | [] =>
          match key with
          | c :: key' => c :: cycleBytes n key key'
          | [] => []
          end
      end
  end.

(** What [bcrypt] reads of a password: 72 bytes, taken cyclically from
    the bytes of the password followed by a NUL.  Two passwords give the
    same digest under one salt exactly when these 72 bytes agree (up to
    the collision resistance of the cipher). *)
Definition bcryptKey (password : string) : list Ascii.ascii :=
  let key := String.list_ascii_of_string password ++ [Ascii.zero] in
  cycleBytes 72 key key.

(** [bcrypt.compare(password, hash)] hashes [password] under the salt of
    [hash] and compares the digests. *)
Definition bcrypt_compare (password : string) (h : PasswordHash) : bool :=
  match h with
  | Bcrypt plain => bool_decide (bcryptKey plain = bcryptKey password)
  end.

Module User.
Record t := mk {
  _id : ObjectId;
  name : option string;
  email : string;
  password : option PasswordHash;
  isVerified : bool;
  verificationCode : option string;
  codeExpires : option Z;
  resetCode : option string;
  resetCodeExpires : option Z;
  createdAt : Z
}.

Definition set_isVerified (v : bool) (x : t) : t :=
  mk (_id x) (name x) (email x) (password x) v (verificationCode x)
     (codeExpires x) (resetCode x) (resetCodeExpires x) (createdAt x).

Definition set_verification (code : option string) (expires : option Z)
    (x : t) : t :=
  mk (_id x) (name x) (email x) (password x) (isVerified x) code expires
     (resetCode x) (resetCodeExpires x) (createdAt x).

Definition set_reset (code : option string) (expires : option Z) (x : t) : t :=
  mk (_id x) (name x) (email x) (password x) (isVerified x)
     (verificationCode x) (codeExpires x) code expires (createdAt x).

Definition set_password (h : PasswordHash) (x : t) : t :=
  mk (_id x) (name x) (email x) (Some h) (isVerified x)
     (verificationCode x) (codeExpires x) (resetCode x)
     (resetCodeExpires x) (createdAt x).

Definition set_name (n : string) (x : t) : t :=
  mk (_id x) (Some n) (email x) (password x) (isVerified x)
     (verificationCode x) (codeExpires x) (resetCode x)
     (resetCodeExpires x) (createdAt x).
End User.

Abbreviation UserDb := (list User.t).

(** [User.findOne({ email })] *)
Definition findByEmail (email : string) (db : UserDb) : option User.t :=
  head (filter (λ x, User.email x = email) db).

(** [user.save()] on a document read from the collection. *)
Fixpoint saveUser (u : User.t) (db : UserDb) : UserDb :=
  match db with
  | [] => []
  | x :: rest =>
      if decide (User._id x = User._id u) then u :: rest
      else x :: saveUser u rest
  end.

(** [User.findById(id)]: Mongoose turns an undefined [id] into the query
    [{ _id: null }], which no document matches. *)
Definition findUserById (userId : option ObjectId) (db : UserDb)
  : option User.t :=
  match userId with
  | Some i => head (filter (λ x, User._id x = i) db)
  | None => None
  end.

(** [.select('-password -verificationCode -codeExpires -resetCode
    -resetCodeExpires')]: what is left of a user document. *)
Record UserView := mkView {
  view_id : ObjectId;
  view_name : option string;
  view_email : string;
  view_isVerified : bool;
  view_createdAt : Z
}.

Definition selectPublic (x : User.t) : UserView :=
  mkView (User._id x) (User.name x) (User.email x) (User.isVerified x)
         (User.createdAt x).

(** ** The credential routes ([routes/auth.js]) *)

(** [{ id, name, email }] *)
Record UserSummary := mkSummary {
  summary_id : ObjectId;
  summary_name : option string;
  summary_email : string
}.

Inductive AuthReply :=
  | Fail (status : nat) (message : string)
  | Ok (message : string)
  | Session (status : nat) (token : Token) (user : UserSummary)
  | Profile (user : UserView).

(** [!s] on a body field that is a string when present. *)
Definition absent (s : option string) : bool :=
  match s with
  | Some v => bool_decide (v = "")
  | None => true
  end.

Definition msPerMinute : Z := 60 * 1000.

(** *** [POST /send-verification-code] *)
Definition sendVerificationCode (now : Z) (code : string) (freshId : ObjectId)
    (mailSent : bool) (email : option string) (db : UserDb)
  : AuthReply * UserDb :=
  match email with
  | Some e =>
    if absent email then (Fail 400 "Email is required", db) else
    match head (filter (λ x, User.email x = e ∧ User.isVerified x = true) db) with
    | Some _ =>
        (Fail 400 "An account with this email already exists and is verified",
         db)
    | None =>
        let codeExpires := now + 10 * msPerMinute in
        let db' :=
          match findByEmail e db with
          | Some x =>
              saveUser (User.set_isVerified false
                          (User.set_verification (Some code)
                             (Some codeExpires) x)) db
          | None =>
              db ++ [User.mk freshId None e None false (Some code)
                       (Some codeExpires) None None now]
          end in
        if mailSent
        then (Ok "Verification code sent to your email", db')
        else (Fail 500 "Failed to send verification code. Please try again.",
              db')
    end
  | None => (Fail 400 "Email is required", db)
  end.

(** [Date.now() > user.codeExpires]: a null expiry compares as 0. *)
Definition expiryInstant (x : User.t) : Z := default 0 (User.codeExpires x).

(** *** [POST /verify-code] *)
Definition verifyCode (now : Z) (email code : option string) (db : UserDb)
  : AuthReply * UserDb :=
  if absent email || absent code
  then (Fail 400 "Email and verification code are required", db)
  else
    match findByEmail (default "" email) db with
    | None => (Fail 400 "No verification was requested for this email", db)
    | Some user =>
        if decide (User.verificationCode user ≠ code)
        then (Fail 400 "Invalid verification code", db)
        else if decide (now > expiryInstant user)
        then (Fail 400
                "Verification code has expired. Please request a new one.", db)
        else (Ok "Email verified successfully",
              saveUser (User.set_isVerified true user) db)
    end.

(** *** [POST /register] *)
Definition register (env : Env) (now : Z) (name email password : option string)
    (db : UserDb) : AuthReply * UserDb :=
  if absent name || absent email || absent password
  then (Fail 400 "All fields are required", db)
  else
    match findByEmail (default "" email) db with
    | None =>
        (Fail 400
           "Email verification required. Please verify your email first.", db)
    | Some user =>
        if bool_decide (is_Some (User.password user))
        then (Fail 400 "User already exists", db)
        else if negb (User.isVerified user)
        then (Fail 400
                "Email verification required. Please verify your email first.",
              db)
        else
          let user' :=
            User.set_verification None None
              (User.set_password (Bcrypt (default "" password))
                 (User.set_name (default "" name) user)) in
          let db' := saveUser user' db in
          match jwt_sign env now (User._id user') with
          | Some token =>
              (Session 201 token
                 (mkSummary (User._id user') (User.name user')
                    (User.email user')), db')
          | None => (Fail 500 "Server error", db')
          end
    end.

(** *** [POST /login], for a body that carries both fields *)
Definition login (env : Env) (now : Z) (email password : string)
    (db : UserDb) : AuthReply * UserDb :=
  match findByEmail email db with
  | None => (Fail 400 "Invalid credentials", db)
  | Some user =>
      match User.password user with
      | None => (Fail 400 "Invalid credentials", db)
      | Some h =>
          if negb (User.isVerified user)
          then (Fail 400
                  "Email not verified. Please verify your email before logging in.",
                db)
          else if bcrypt_compare password h
          then
            match jwt_sign env now (User._id user) with
            | Some token =>
                (Session 200 token
                   (mkSummary (User._id user) (User.name user)
                      (User.email user)), db)
            | None => (Fail 500 "Server error", db)
            end
          else (Fail 400 "Invalid credentials", db)
      end
  end.

(** *** [GET /user]

    The handler reads [req.user.userId]. *)
Definition getUser (env : Env) (now : Z) (req : Request unit) (db : UserDb)
  : AuthReply :=
  match auth env now req with
  | Denied status message => Fail status message
  | Next reqUser =>
      match findUserById (reqUserProp "userId" reqUser) db with
      | None => Fail 404 "User not found"
      | Some user => Profile (selectPublic user)
      end
  end.

(** *** [POST /forgot-password] *)
Definition forgotPassword (now : Z) (code : string) (mailSent : bool)
    (email : option string) (db : UserDb) : AuthReply * UserDb :=
  if absent email then (Fail 400 "Email is required", db)
  else
    match findByEmail (default "" email) db with
    | None => (Fail 404 "User not found", db)
    | Some user =>
        let resetCodeExpires := now + 30 * msPerMinute in
        let db' :=
          saveUser (User.set_reset (Some code) (Some resetCodeExpires) user)
                   db in
        if mailSent
        then (Ok "Password reset code sent to your email", db')
        else (Fail 500 "Server error", db')
    end.

(** The query operator [{ $gt: now }] on a nullable date. *)
Definition laterThan (now : Z) (d : option Z) : Prop :=
  match d with
  | Some e => e > now
  | None => False
  end.

Global Instance laterThan_dec now d : Decision (laterThan now d).
Proof. destruct d; simpl; apply _. Defined.

(** *** [POST /reset-password] *)
Definition resetPassword (now : Z) (email code newPassword : option string)
    (db : UserDb) : AuthReply * UserDb :=
  if absent email || absent code || absent newPassword
  then (Fail 400 "Email, reset code, and new password are required", db)
  else
    match head (filter (λ x, User.email x = default "" email
                           ∧ User.resetCode x = code
                           ∧ laterThan now (User.resetCodeExpires x))
                       db) with
    | None => (Fail 400 "Invalid or expired reset code", db)
    | Some user =>
        let user' :=
          User.set_reset None None
            (User.set_password (Bcrypt (default "" newPassword)) user) in
        (Ok "Password has been reset successfully", saveUser user' db)
    end.

(** A trace of credential-service calls, each with what it draws from the
    environment (clock, generated code, new [_id], mail outcome). *)
Inductive AuthCall :=
  | CallSendCode (now : Z) (code : string) (freshId : ObjectId)
      (mailSent : bool) (email : option string)
  | CallVerify (now : Z) (email code : option string)
  | CallRegister (now : Z) (name email password : option string)
  | CallLogin (now : Z) (email password : string)
  | CallForgot (now : Z) (code : string) (mailSent : bool)
      (email : option string)
  | CallReset (now : Z) (email code newPassword : option string).

Definition authStep (env : Env) (db : UserDb) (c : AuthCall) : UserDb :=
  match c with
  | CallSendCode now code freshId mailSent email =>
      (sendVerificationCode now code freshId mailSent email db).2
  | CallVerify now email code => (verifyCode now email code db).2
  | CallRegister now name email password =>
      (register env now name email password db).2
  | CallLogin now email password => (login env now email password db).2
  | CallForgot now code mailSent email =>
      (forgotPassword now code mailSent email db).2
  | CallReset now email code newPassword =>
      (resetPassword now email code newPassword db).2
  end.

Definition authRun (env : Env) (calls : list AuthCall) : UserDb :=
  foldl (authStep env) [] calls.

(** ** Predicates used in the statements *)

(** The entry of a histogram, read as a count. *)
Definition countOf (byDay : gmap nat nat) (d : nat) : nat :=
  default 0%nat (byDay !! d).

(** Every key of the histogram has a positive count. *)
Definition positiveEntries (byDay : gmap nat nat) : Prop :=
  ∀ d c, byDay !! d = Some c → (0 < c)%nat.


(** A body whose [completed] key is absent or a JSON boolean; the flag it
    then carries. *)
Definition booleanFlag (b : PutBody.t) (flag : option bool) : Prop :=
  PutBody.completed b = JBool <$> flag.

(** A call whose body, if it is a [PUT], has no [completedAt] key and has
    [completed] absent or a JSON boolean. *)
Definition plainPut (c : TodoCall) : Prop :=
  match c with
  | CallPut _ _ req =>
      PutBody.completedAt (body req) = None
      ∧ ∃ flag, booleanFlag (body req) flag
  | _ => True
  end.

Global Instance booleanFlag_ex_dec b : Decision (∃ flag, booleanFlag b flag).
Proof.
  unfold booleanFlag. destruct (PutBody.completed b) as [[flag| | |]|].
  - left. by exists (Some flag).
  - right. by intros [[?|] ?].
  - right. by intros [[?|] ?].
  - right. by intros [[?|] ?].
  - left. by exists None.
Defined.

Global Instance plainPut_dec c : Decision (plainPut c).
Proof. destruct c; simpl; apply _. Defined.

(** The replies of [POST /verify-code], under the names the
    specification gives them. *)
Definition replyNotFound : AuthReply :=
  Fail 400 "No verification was requested for this email".
Definition replyInvalidCode : AuthReply :=
  Fail 400 "Invalid verification code".
Definition replyCodeExpired : AuthReply :=
  Fail 400 "Verification code has expired. Please request a new one.".
Definition replyVerified : AuthReply := Ok "Email verified successfully".

(** ** Sample stores, tokens and requests *)

Definition sampleEnv : Env := mkEnv (Some "s3cret").

(** Midnight UTC, 2 November 2026. *)
Definition sampleMidnight : Z := 20759 * msPerDay.

Definition urgentTodo (todoId owner : ObjectId) : Todo.t :=
  Todo.mk todoId owner "pay rent" false None None High [] "general" ""
          (Some 0).

Definition twoOwners : TodoDb := [urgentTodo 1 10; urgentTodo 2 20].

Definition alice : User.t :=
  User.mk 7 (Some "Alice") "alice@example.org" (Some (Bcrypt "hunter2"))
          true None None None None 0.

Definition aliceToken : Token := Signed "s3cret" 7 (24 * msPerHour).

Definition ownerToken : Token := Signed "s3cret" 10 (24 * msPerHour).

(** The body [{ "user": 20 }]. *)
Definition handOver : PutBody.t :=
  PutBody.mk None None None None None None None None (Some 20%nat) None.

Definition ghostTrace : list AuthCall :=
  [ CallSendCode 0 "123456" 1 true (Some "bob@example.org");
    CallForgot 1000 "654321" true (Some "bob@example.org");
    CallReset 2000 (Some "bob@example.org") (Some "654321") (Some "pw") ].

Definition userToken : Token := Signed "s3cret" 10 (30000 * msPerDay).

Definition chore (todoId : ObjectId) (p : Priority) (due : option Z)
  : Todo.t :=
  Todo.mk todoId 10 "chore" false None due p [] "general" "" (Some 0).

(** One overdue high-priority task, four unscheduled medium ones. *)
Definition backlog : TodoDb :=
  [ chore 1 Medium None; chore 2 High (Some 5); chore 3 Medium None;
    chore 4 Medium None; chore 5 Medium None ].

Definition planRequest : Request unit := mkReq (Some userToken) tt.

Definition newcomerRequest : Request unit :=
  mkReq (Some (Signed "s3cret" 30 (30000 * msPerDay))) tt.


(** The body [{ "completed": true }]. *)
Definition markDone : PutBody.t :=
  PutBody.mk None (Some (JBool true)) None None None None None None None
             None.

Definition pendingBob : User.t :=
  User.mk 1 None "bob@example.org" None false (Some "123456")
          (Some (10 * msPerMinute)) None None 0.

(** A todo completed and stamped at instant 1500, and the body
    [{ "completed": 0 }]. *)
Definition stampedTodo : Todo.t :=
  Todo.mk 1 10 "pay rent" true (Some 1500) None High [] "general" ""
          (Some 0).

Definition zeroFlag : PutBody.t :=
  PutBody.mk None (Some (JNumber 0)) None None None None None None None None.

(** Wednesday 7 Jan 1970 and Monday 12 Jan 1970, both at noon UTC. *)
Definition wednesdayNoon : Z := 6 * msPerDay + 12 * msPerHour.
Definition mondayNoon : Z := 11 * msPerDay + 12 * msPerHour.

Definition finished (todoId : ObjectId) (doneAt : Z) : Todo.t :=
  Todo.mk todoId 10 "done" true (Some doneAt) None Medium [] "general" ""
          (Some 0).

(** ** Predicates on calls *)

(** What [auth] decides for the request of a todo call, at the instant of
    the call. *)
Definition callAuth (env : Env) (c : TodoCall) : AuthOutcome :=
  match c with
  | CallPost now _ req => auth env now req
  | CallPut now _ req => auth env now req
  | CallDelete now _ req => auth env now req
  | CallPlan now req => auth env now req
  end.

(** The [_id] drawn for a new todo is not in the collection yet. *)
Definition freshCall (db : TodoDb) (c : TodoCall) : Prop :=
  match c with
  | CallPost _ freshId _ => freshId ∉ ids db
  | _ => True
  end.

(** ** Completion times, counted directly *)

(** The time a todo took from creation to completion, for a todo that
    has both timestamps. *)
Definition completionTime (x : Todo.t) : option Z :=
  match Todo.completedAt x, Todo.createdAt x with
  | Some doneAt, Some madeAt => Some (doneAt - madeAt)
  | _, _ => None
  end.

(** The completion times of the todos filed under a category (an empty
    category counting as [general]), in stored order. *)
Definition categoryTimes (c : string) (todos : TodoDb) : list Z :=
  omap (λ x, if decide (categoryOrGeneral x = c) then completionTime x
             else None) todos.

Definition sumZ (l : list Z) : Z := foldr Z.add 0 l.

(** ** Keys of the user collection *)

Global Instance PasswordHash_eq_dec : EqDecision PasswordHash.
Proof. solve_decision. Defined.

Global Instance User_eq_dec : EqDecision User.t.
Proof. solve_decision. Defined.

Definition userIds (db : UserDb) : list ObjectId := User._id <$> db.

Definition emails (db : UserDb) : list string := User.email <$> db.

(** The [_id] drawn for a record that an upsert may insert is not in the
    collection yet. *)
Definition freshAuthCall (db : UserDb) (c : AuthCall) : Prop :=
  match c with
  | CallSendCode _ _ freshId _ _ => freshId ∉ userIds db
  | _ => True
  end.

(** [after] is the same account as [before], no less verified and no
    less protected by a password. *)
Definition sameAccount (before after : User.t) : Prop :=
  User._id after = User._id before
  ∧ User.email after = User.email before
  ∧ User.createdAt after = User.createdAt before
  ∧ (User.isVerified before = true → User.isVerified after = true)
  ∧ (is_Some (User.password before) → is_Some (User.password after)).

(** * Properties *)

(** ** The midnight job and the token gate *)

(** A request without an [auth-token] header never reaches a handler. *)
Lemma guarded_without_token {B} env now (body : B) db handler :
  guarded env now (mkReq None body) db handler
  = (Message 401 "No token, authorization denied", db).
Proof. reflexivity. Qed.

Lemma cronJob_denied env tz now db :
  cronJob env tz now db = (Message 401 "No token, authorization denied", db).
Proof. apply guarded_without_token. Qed.

(** C1, evaluated on the code.  With two users who each own a pending
    high-priority todo, the midnight job performs no planning run at all:
    its one request carries no token, is answered 401 by [auth], and every
    todo is left as it was, although a planning run for either user would
    have assigned that user's todo to tomorrow. *)
Theorem cron_job_plans_for_no_user :
  cronJob sampleEnv 0 sampleMidnight twoOwners
  = (Message 401 "No token, authorization denied", twoOwners)
  ∧ (planTomorrow 0 sampleMidnight (mkReqUser 10) twoOwners).2 ≠ twoOwners
  ∧ (planTomorrow 0 sampleMidnight (mkReqUser 20) twoOwners).2 ≠ twoOwners.
Proof.
  split; [apply cronJob_denied|].
  split; vm_compute; discriminate.
Qed.

(** X26.  Whatever token [auth] accepts, [GET /user] looks the user up under
    [req.user.userId], a property [auth] never sets. *)
Lemma getUser_never_finds env now req db :
  getUser env now req db = Fail 401 "No token, authorization denied"
  ∨ getUser env now req db = Fail 401 "Token is not valid"
  ∨ getUser env now req db = Fail 404 "User not found".
Proof.
  unfold getUser, auth.
  destruct (tokenMissing (authToken req)); [by left|].
  destruct (authToken req ≫= jwt_verify (verifySecret env) now);
    [right; right | right; left]; reflexivity.
Qed.

(** C2, evaluated on the code.  Alice is registered and verified and holds
    an unexpired token bound to her [_id]; the middleware accepts it, and
    [GET /user] still answers 404 [User not found]. *)
Theorem get_user_with_valid_token_is_404 :
  auth sampleEnv 1000 (mkReq (Some aliceToken) tt) = Next (mkReqUser 7)
  ∧ findUserById (Some 7%nat) [alice] = Some alice
  ∧ getUser sampleEnv 1000 (mkReq (Some aliceToken) tt) [alice]
    = Fail 404 "User not found".
Proof. repeat split. Qed.

(** ** Ownership under [PUT /:id] *)

(** C3, evaluated on the code.  User 10 owns todo 1 and sends
    [PUT /todos/1] with the body [{ user: 20 }]: the stored todo now
    belongs to user 20. *)
Theorem put_body_can_change_owner :
  putTodo sampleEnv 1000 1 (mkReq (Some ownerToken) handOver) [urgentTodo 1 10]
  = (OneTodo 200 (Some (urgentTodo 1 20)), [urgentTodo 1 20]).
Proof. reflexivity. Qed.

(** ** Passwords of unverified users *)

(** C4, evaluated on the code.  A verification code is requested for a new
    address, then a password reset for the same address, then the reset is
    completed: the store holds a record with [isVerified = false] and a
    password, set by [resetPassword] and not by [register]. *)
Theorem reset_sets_password_on_unverified_user :
  authRun sampleEnv ghostTrace
  = [ User.mk 1 None "bob@example.org" (Some (Bcrypt "pw")) false
        (Some "123456") (Some (10 * msPerMinute)) None None 0 ].
Proof. vm_compute. reflexivity. Qed.

(** ** Writes addressed by [_id] *)

Section UpdateById.
Context (f : Todo.t → Todo.t).
Hypothesis f_keeps_id : ∀ x, Todo._id (f x) = Todo._id x.

Lemma ids_updateById i db : ids (updateById i f db) = ids db.
Proof.
  unfold ids. induction db as [|x db IH]; csimpl; [done|].
  case_decide; csimpl; [by rewrite f_keeps_id | by rewrite IH].
Qed.

(** With unique ids, changing the first match is changing every match. *)
Lemma updateById_fmap i db :
  NoDup (ids db) →
  updateById i f db
  = (λ x, if decide (Todo._id x = i) then f x else x) <$> db.
Proof.
  unfold ids. induction db as [|x db IH]; csimpl; [done|].
  intros [Hx Hdb]%NoDup_cons. case_decide as Hi.
  - f_equal. clear IH Hdb. induction db as [|y db IH]; csimpl; [done|].
    rewrite decide_False.
    + f_equal. apply IH. intros Hin. apply Hx. by right.
    + intros Hy. apply Hx. rewrite Hi, <- Hy. by left.
  - f_equal. by apply IH.
Qed.
End UpdateById.

Lemma set_dueDate_id d x : Todo._id (Todo.set_dueDate d x) = Todo._id x.
Proof. reflexivity. Qed.

Lemma ids_saveDueDate tm db task : ids (saveDueDate tm db task) = ids db.
Proof. apply ids_updateById, set_dueDate_id. Qed.

(** A run of [task.save()] calls, as one pass over the collection. *)
Lemma foldl_saveDueDate tm tasks db :
  NoDup (ids db) →
  foldl (saveDueDate tm) db tasks
  = (λ x, if decide (Todo._id x ∈ ids tasks)
          then Todo.set_dueDate (Some tm) x else x) <$> db.
Proof.
  revert db. induction tasks as [|t tasks IH]; intros db Hdb; simpl.
  - rewrite <- (list_fmap_id db) at 1. by apply list_fmap_ext.
  - rewrite IH by (by rewrite ids_saveDueDate).
    unfold saveDueDate.
    rewrite updateById_fmap by done.
    rewrite <- list_fmap_compose. apply list_fmap_ext. intros i x _. simpl.
    destruct (decide (Todo._id x = Todo._id t)) as [E|E].
    + rewrite set_dueDate_id.
      rewrite (decide_True (P := Todo._id x ∈ _ :: _))
        by (rewrite E; apply list_elem_of_here).
      by case_decide.
    + destruct (decide (Todo._id x ∈ ids tasks)) as [M|M].
      * rewrite decide_True by (by apply list_elem_of_further). done.
      * rewrite decide_False; [done|].
        by intros [?|?]%elem_of_cons.
Qed.

(** ** The shape of a planning run *)

Lemma guarded_next {B} env now (req : Request B) db handler u :
  auth env now req = Next u →
  guarded env now req db handler = handler u.
Proof. unfold guarded. by intros ->. Qed.

Lemma planTomorrow_guard tz now u db :
  filter (dueWithin (startOfTomorrow tz now) (id u)) db ≠ [] →
  planTomorrow tz now u db
  = (AlreadyPlanned "Tasks for tomorrow already exist"
       (length (filter (dueWithin (startOfTomorrow tz now) (id u)) db)), db).
Proof.
  intros H. unfold planTomorrow. rewrite decide_True; [done|].
  destruct (filter _ db); [done | simpl; lia].
Qed.

Lemma planTomorrow_run tz now u db :
  filter (dueWithin (startOfTomorrow tz now) (id u)) db = [] →
  let tm := startOfTomorrow tz now in
  let db' := foldl (saveDueDate tm) db (assignedTasks u db) in
  planTomorrow tz now u db
  = (Planned (length (filter (dueWithin tm (id u)) db'))
       (analyse tz (filter (λ x, Todo.completed x = true
                                 ∧ Todo.user x = id u) db)),
     db').
Proof.
  intros H. cbv zeta. unfold planTomorrow. cbv zeta. rewrite H.
  destruct (decide (0 < length (@nil Todo.t))%nat) as [Hlt|_];
    [simpl in Hlt; lia|].
  unfold assignedTasks. rewrite foldl_app.
  match goal with
  | |- context [decide (0 < ?n)%nat] =>
      destruct (decide (0 < n)%nat) as [Hn|Hn]; [done|];
      replace n with 0%nat by lia
  end.
  by rewrite take_0.
Qed.

(** ** What a planning run assigns *)

Lemma filter_none {A} (P : A → Prop) `{!∀ x, Decision (P x)} (l : list A) :
  (∀ x, x ∈ l → ¬ P x) → filter P l = [].
Proof.
  induction l as [|x l IH]; intros Hall; [done|].
  rewrite filter_cons, decide_False.
  - apply IH. intros y Hy. apply Hall. by right.
  - apply Hall. by left.
Qed.

Lemma assignedTasks_pending u db x :
  x ∈ assignedTasks u db →
  x ∈ db ∧ Todo.user x = id u ∧ Todo.completed x = false.
Proof.
  unfold assignedTasks. intros [H|H]%elem_of_app.
  - apply list_elem_of_filter in H as [_ H].
    apply list_elem_of_filter in H as [[? ?] ?]. done.
  - apply subseteq_take in H.
    apply list_elem_of_filter in H as [_ H].
    apply list_elem_of_filter in H as [[? ?] ?]. done.
Qed.

Lemma high_priority_assigned u db x :
  x ∈ db → Todo.user x = id u → Todo.completed x = false →
  Todo.priority x = High → x ∈ assignedTasks u db.
Proof.
  intros. unfold assignedTasks. apply elem_of_app. left.
  apply list_elem_of_filter. split; [done|].
  by apply list_elem_of_filter.
Qed.

Lemma NoDup_assignedTasks u db : NoDup db → NoDup (assignedTasks u db).
Proof.
  intros Hdb. unfold assignedTasks. apply NoDup_app. repeat split.
  - by do 2 apply NoDup_filter.
  - intros x [Hhigh _]%list_elem_of_filter Hmed.
    apply subseteq_take in Hmed.
    apply list_elem_of_filter in Hmed as [[Hmed _] _]. congruence.
  - eapply sublist_NoDup; [|apply sublist_take].
    by do 2 apply NoDup_filter.
Qed.

Lemma unique_by_id db x y :
  NoDup (ids db) → x ∈ db → y ∈ db → Todo._id x = Todo._id y → x = y.
Proof.
  unfold ids. induction db as [|z db IH]; csimpl; [by intros _ ?%elem_of_nil|].
  intros [Hz Hdb]%NoDup_cons [->|Hx]%elem_of_cons [->|Hy]%elem_of_cons E.
  - done.
  - exfalso. apply Hz. rewrite E. by apply list_elem_of_fmap_2.
  - exfalso. apply Hz. rewrite <- E. by apply list_elem_of_fmap_2.
  - by apply IH.
Qed.

(** With unique ids, a stored todo whose id is that of an assigned task is
    that task. *)
Lemma assigned_by_id u db x :
  NoDup (ids db) → x ∈ db →
  Todo._id x ∈ ids (assignedTasks u db) ↔ x ∈ assignedTasks u db.
Proof.
  intros Hdb Hx. split.
  - intros (a & Ha & Hin)%list_elem_of_fmap.
    assert (a ∈ db) by (by apply assignedTasks_pending in Hin as [? _]).
    assert (x = a) as ->; [|done].
    by apply (unique_by_id db).
  - apply list_elem_of_fmap_2.
Qed.

Lemma length_filter_fmap {A} (P Q : A → Prop) `{!∀ x, Decision (P x)}
    `{!∀ x, Decision (Q x)} (g : A → A) (l : list A) :
  (∀ x, x ∈ l → P (g x) ↔ Q x) →
  length (filter P (g <$> l)) = length (filter Q l).
Proof.
  induction l as [|x l IH]; intros Hall; [done|]. csimpl.
  rewrite !filter_cons.
  assert (P (g x) ↔ Q x) as Hx by (apply Hall; by left).
  assert (length (filter P (g <$> l)) = length (filter Q l)) as Hl.
  { apply IH. intros y Hy. apply Hall. by right. }
  destruct (decide (P (g x))), (decide (Q x)); simpl; tauto || lia.
Qed.

Lemma msPerDay_pos : 0 < msPerDay.
Proof. reflexivity. Qed.

(** After a run that passed the guard, the user's todos due tomorrow are
    exactly the tasks the run assigned. *)
Lemma planned_count tm u db :
  NoDup (ids db) →
  filter (dueWithin tm (id u)) db = [] →
  length (filter (dueWithin tm (id u))
            (foldl (saveDueDate tm) db (assignedTasks u db)))
  = length (assignedTasks u db).
Proof.
  intros Hids Hguard. rewrite foldl_saveDueDate by done.
  assert (NoDup db) as Hdb by (by apply (NoDup_fmap_1 Todo._id)).
  rewrite (length_filter_fmap _ (λ x, x ∈ assignedTasks u db)).
  - apply Permutation_length, NoDup_Permutation.
    + by apply NoDup_filter.
    + by apply NoDup_assignedTasks.
    + intros x. rewrite list_elem_of_filter. split; [tauto|].
      intros H. split; [done|]. by apply assignedTasks_pending in H as [? _].
  - intros x Hx. rewrite <- (assigned_by_id u db x) by done.
    destruct (decide (Todo._id x ∈ ids (assignedTasks u db))) as [Hin|Hin].
    + split; [done|]. intros _.
      apply (assigned_by_id u db x) in Hin; [|done..].
      apply assignedTasks_pending in Hin as (_ & Hu & _).
      split; [|done]. exists tm. simpl. pose proof msPerDay_pos. split; [done|lia].
    + split; [|done]. intros Hdue.
      by apply (filter_nil_not_elem_of _ _ x Hguard) in Hdue.
Qed.

(** ** High-priority tasks *)

(** C6.  On a planning run that passes the idempotence guard, every
    pending high-priority todo of the user is stored with
    [dueDate = tomorrow], whatever [optimalTaskCount] is and whatever due
    date the todo had. *)
Theorem high_priority_always_planned env tz now req u db x :
  auth env now req = Next u →
  NoDup (ids db) →
  filter (dueWithin (startOfTomorrow tz now) (id u)) db = [] →
  x ∈ db → Todo.user x = id u → Todo.completed x = false →
  Todo.priority x = High →
  let tomorrow := startOfTomorrow tz now in
  let db' := (postPlanTomorrow env tz now req db).2 in
  Todo.set_dueDate (Some tomorrow) x ∈ db'
  ∧ ∀ y, y ∈ db' → Todo._id y = Todo._id x → Todo.dueDate y = Some tomorrow.
Proof.
  intros Hauth Hids Hguard Hx Hu Hc Hp. cbv zeta.
  unfold postPlanTomorrow. rewrite (guarded_next _ _ _ _ _ u) by done.
  rewrite planTomorrow_run by done. cbv zeta. cbn [snd].
  rewrite foldl_saveDueDate by done.
  assert (Todo._id x ∈ ids (assignedTasks u db)) as Hin.
  { apply list_elem_of_fmap_2. by apply high_priority_assigned. }
  split.
  - apply list_elem_of_fmap. exists x. split; [|done].
    by rewrite decide_True.
  - intros y (z & -> & Hz)%list_elem_of_fmap E.
    destruct (decide (Todo._id z ∈ ids (assignedTasks u db))) as [|Hn];
      [done|].
    exfalso. apply Hn. by rewrite E.
Qed.

Lemma high_priority_always_planned_witness :
  Todo.set_dueDate (Some (startOfTomorrow 0 sampleMidnight))
    (chore 2 High (Some 5))
  ∈ (postPlanTomorrow sampleEnv 0 sampleMidnight planRequest backlog).2.
Proof.
  refine (proj1 (high_priority_always_planned sampleEnv 0 sampleMidnight
                   planRequest (mkReqUser 10) backlog (chore 2 High (Some 5))
                   _ _ _ _ _ _ _)).
  - reflexivity.
  - apply (bool_decide_unpack _). vm_compute. exact I.
  - reflexivity.
  - apply (bool_decide_unpack _). vm_compute. exact I.
  - reflexivity.
  - reflexivity.
  - reflexivity.
Defined.

(** ** A user without todos *)

Lemma analyse_nil tz : analyse tz [] = mkAnalysis 0 ∅ ∅.
Proof. reflexivity. Qed.

Lemma assignedTasks_none u db :
  (∀ x, x ∈ db → Todo.user x ≠ id u) → assignedTasks u db = [].
Proof.
  intros H. unfold assignedTasks.
  rewrite (filter_none (λ x, Todo.completed x = false ∧ Todo.user x = id u))
    by (intros x Hx [_ Hu]; by apply (H x)).
  by rewrite !filter_nil, take_nil.
Qed.

Lemma planTomorrow_no_todos tz now u db :
  (∀ x, x ∈ db → Todo.user x ≠ id u) →
  planTomorrow tz now u db = (Planned 0 (mkAnalysis 0 ∅ ∅), db).
Proof.
  intros H.
  assert (∀ tm, filter (dueWithin tm (id u)) db = []) as Hdue.
  { intros tm. apply filter_none. intros x Hx [_ Hu]. by apply (H x). }
  rewrite planTomorrow_run by apply Hdue. cbv zeta.
  rewrite assignedTasks_none by done. simpl. rewrite Hdue.
  rewrite (filter_none (λ x, Todo.completed x = true ∧ Todo.user x = id u))
    by (intros x Hx [_ Hu]; by apply (H x)).
  done.
Qed.

(** C10.  For a user who owns no todo, [POST /plan-tomorrow] answers
    [planned: true] with [taskCount: 0] and changes nothing, and so does
    the same call made again right after it. *)
Theorem plan_for_user_without_todos env tz now now' req req' u db :
  auth env now req = Next u →
  auth env now' req' = Next u →
  (∀ x, x ∈ db → Todo.user x ≠ id u) →
  postPlanTomorrow env tz now req db = (Planned 0 (mkAnalysis 0 ∅ ∅), db)
  ∧ postPlanTomorrow env tz now' req'
      (postPlanTomorrow env tz now req db).2
    = (Planned 0 (mkAnalysis 0 ∅ ∅), db).
Proof.
  intros Hauth Hauth' Hnone.
  assert (postPlanTomorrow env tz now req db
          = (Planned 0 (mkAnalysis 0 ∅ ∅), db)) as Hfirst.
  { unfold postPlanTomorrow. rewrite (guarded_next _ _ _ _ _ u) by done.
    by apply planTomorrow_no_todos. }
  split; [done|]. rewrite Hfirst. cbn [snd].
  unfold postPlanTomorrow. rewrite (guarded_next _ _ _ _ _ u) by done.
  by apply planTomorrow_no_todos.
Qed.

Lemma plan_for_user_without_todos_witness :
  postPlanTomorrow sampleEnv 0 sampleMidnight newcomerRequest twoOwners
  = (Planned 0 (mkAnalysis 0 ∅ ∅), twoOwners)
  ∧ postPlanTomorrow sampleEnv 0 (sampleMidnight + 1) newcomerRequest
      (postPlanTomorrow sampleEnv 0 sampleMidnight newcomerRequest twoOwners).2
    = (Planned 0 (mkAnalysis 0 ∅ ∅), twoOwners).
Proof.
  apply (plan_for_user_without_todos sampleEnv 0 sampleMidnight
           (sampleMidnight + 1) newcomerRequest newcomerRequest
           (mkReqUser 30)).
  - reflexivity.
  - reflexivity.
  - apply Forall_forall, (bool_decide_unpack _). vm_compute. exact I.
Defined.

(** ** Planning the same day twice *)

(** C5 as stated fails: on a store without todos the second of two
    successive calls answers [planned: true] again. *)
Lemma second_plan_may_plan_again :
  (postPlanTomorrow sampleEnv 0 sampleMidnight planRequest []).1
  = Planned 0 (mkAnalysis 0 ∅ ∅)
  ∧ (postPlanTomorrow sampleEnv 0 (sampleMidnight + 1) planRequest
       (postPlanTomorrow sampleEnv 0 sampleMidnight planRequest []).2).1
    = Planned 0 (mkAnalysis 0 ∅ ∅)
  ∧ ∀ message k,
      (postPlanTomorrow sampleEnv 0 (sampleMidnight + 1) planRequest
         (postPlanTomorrow sampleEnv 0 sampleMidnight planRequest []).2).1
      ≠ AlreadyPlanned message k.
Proof. repeat split. intros message k. discriminate. Qed.

(** C5, amended.  Two successive calls for the same user on the same
    calendar day.  Whenever a todo of the user is already due within
    [tomorrow, tomorrow + 24h), a call answers [planned: false] with the
    number of such todos and writes nothing.  Otherwise the first call
    answers [planned: true] with [taskCount] the number [n] of tasks it
    assigned; if [n > 0] the second call answers [planned: false] with
    [tasksExisting = n]; if [n = 0] the second call plans again and
    answers as the first did. *)
Theorem replanning_same_day env tz now1 now2 req1 req2 u db :
  auth env now1 req1 = Next u →
  auth env now2 req2 = Next u →
  startOfTomorrow tz now1 = startOfTomorrow tz now2 →
  NoDup (ids db) →
  let tomorrow := startOfTomorrow tz now1 in
  let existing := filter (dueWithin tomorrow (id u)) db in
  let first := postPlanTomorrow env tz now1 req1 db in
  let second := postPlanTomorrow env tz now2 req2 first.2 in
  let n := length (assignedTasks u db) in
  (existing ≠ [] →
     first = (AlreadyPlanned "Tasks for tomorrow already exist"
                (length existing), db))
  ∧ (existing = [] →
     ∃ analysis,
       first.1 = Planned n analysis
       ∧ ((0 < n)%nat →
            second = (AlreadyPlanned "Tasks for tomorrow already exist" n,
                      first.2))
       ∧ (n = 0%nat → second = (Planned 0 analysis, db))).
Proof.
  intros Hauth1 Hauth2 Hday Hids. cbv zeta. unfold postPlanTomorrow.
  rewrite (guarded_next _ _ _ _ _ u) by done.
  split; [apply planTomorrow_guard|].
  intros Hguard. rewrite planTomorrow_run by done. cbv zeta. cbn [fst snd].
  rewrite planned_count by done.
  eexists. split; [done|].
  rewrite (guarded_next _ _ _ _ _ u) by done. split.
  - intros Hn. rewrite planTomorrow_guard; rewrite <- Hday.
    + by rewrite planned_count.
    + rewrite <- length_zero_iff_nil, planned_count by done. lia.
  - intros Hn. apply length_zero_iff_nil in Hn. rewrite Hn. simpl.
    rewrite planTomorrow_run by (by rewrite <- Hday). cbv zeta.
    rewrite Hn. simpl. by rewrite <- Hday, Hguard.
Qed.

Lemma replanning_same_day_witness :
  ∃ analysis,
    (postPlanTomorrow sampleEnv 0 sampleMidnight planRequest backlog).1
    = Planned 3 analysis
    ∧ postPlanTomorrow sampleEnv 0 (sampleMidnight + 1) planRequest
        (postPlanTomorrow sampleEnv 0 sampleMidnight planRequest backlog).2
      = (AlreadyPlanned "Tasks for tomorrow already exist" 3,
         (postPlanTomorrow sampleEnv 0 sampleMidnight planRequest backlog).2).
Proof.
  destruct (replanning_same_day sampleEnv 0 sampleMidnight (sampleMidnight + 1)
              planRequest planRequest (mkReqUser 10) backlog)
    as [_ Hrun].
  - reflexivity.
  - reflexivity.
  - reflexivity.
  - apply (bool_decide_unpack _). vm_compute. exact I.
  - destruct Hrun as (analysis & Hfirst & Hsecond & _); [reflexivity|].
    exists analysis. split; [exact Hfirst|].
    apply Hsecond. vm_compute. lia.
Defined.

(** ** Completion stamps *)




Lemma planTomorrow_store tz now u db :
  (planTomorrow tz now u db).2 = db
  ∨ (planTomorrow tz now u db).2
    = foldl (saveDueDate (startOfTomorrow tz now)) db (assignedTasks u db).
Proof.
  destruct (decide (filter (dueWithin (startOfTomorrow tz now) (id u)) db = []))
    as [E|E].
  - right. by rewrite planTomorrow_run.
  - left. by rewrite planTomorrow_guard.
Qed.





Lemma findOwned_Some todoId userId db todo :
  findOwned todoId userId db = Some todo →
  todo ∈ db ∧ Todo._id todo = todoId ∧ Todo.user todo = userId.
Proof.
  unfold findOwned. intros H%head_Some_elem_of.
  apply list_elem_of_filter in H as [[? ?] ?]. done.
Qed.

Lemma findById_updateById f i db x :
  (∀ y, Todo._id (f y) = Todo._id y) →
  NoDup (ids db) → x ∈ db → Todo._id x = i →
  findById i (updateById i f db) = Some (f x).
Proof.
  intros Hf. unfold findById, ids.
  induction db as [|z db IH]; csimpl; [by intros _ ?%elem_of_nil|].
  intros [Hz Hdb]%NoDup_cons Hx Hi. case_decide as Hzi.
  - assert (x = z) as ->.
    { apply elem_of_cons in Hx as [->|Hx]; [done|]. exfalso. apply Hz.
      rewrite Hzi, <- Hi. by apply list_elem_of_fmap_2. }
    rewrite filter_cons, decide_True by (by rewrite Hf). done.
  - apply elem_of_cons in Hx as [->|Hx]; [done|].
    rewrite filter_cons, decide_False by done. by apply IH.
Qed.




(** Why the flag has to be a boolean: the number 0 is neither truthy nor
    [=== false], so neither branch of the stamping step is taken, and the
    update stores it cast to [false] beside the old stamp. *)
Example zero_flag_keeps_the_stamp :
  putTodo sampleEnv 2000 1 (mkReq (Some ownerToken) zeroFlag) [stampedTodo]
  = (OneTodo 200
       (Some (Todo.mk 1 10 "pay rent" false (Some 1500) None High []
                "general" "" (Some 0))),
     [ Todo.mk 1 10 "pay rent" false (Some 1500) None High [] "general" ""
         (Some 0) ]).
Proof. reflexivity. Qed.

(** ** Outcomes of [verifyCode] *)

Lemma findByEmail_Some e db u :
  findByEmail e db = Some u → u ∈ db ∧ User.email u = e.
Proof.
  unfold findByEmail. intros H%head_Some_elem_of.
  apply list_elem_of_filter in H as [? ?]. done.
Qed.

(** After [user.save()], the lookup by email returns the saved document. *)
Lemma findByEmail_saveUser e db u u' :
  findByEmail e db = Some u →
  User.email u' = e → User._id u' = User._id u →
  findByEmail e (saveUser u' db) = Some u'.
Proof.
  unfold findByEmail. intros Hfind He Hid.
  induction db as [|z db IH]; simpl in *; [done|].
  case_decide as Hz.
  - by rewrite filter_cons, decide_True.
  - rewrite filter_cons in Hfind |- *. case_decide as Hze.
    + simpl in Hfind. injection Hfind as ->. congruence.
    + by apply IH.
Qed.

(** C8 as stated fails: with an empty email (for which no record
    exists) the reply is the validation failure, not [NotFound]. *)
Lemma verifyCode_empty_email_is_not_NotFound :
  findByEmail "" [] = None
  ∧ verifyCode 0 (Some "") (Some "123456") []
    = (Fail 400 "Email and verification code are required", [])
  ∧ (verifyCode 0 (Some "") (Some "123456") []).1 ≠ replyNotFound.
Proof. repeat split. discriminate. Qed.

(** The cascade of checks behind the guard on missing fields: lookup,
    code, expiry. *)
Lemma verifyCode_cascade now email code db :
  email ≠ "" → code ≠ "" →
  let r := verifyCode now (Some email) (Some code) db in
  (r.1 = replyNotFound ↔ findByEmail email db = None)
  ∧ (r.1 ≠ replyVerified → r.2 = db)
  ∧ ∀ user, findByEmail email db = Some user →
      (r.1 = replyInvalidCode ↔ User.verificationCode user ≠ Some code)
      ∧ (User.verificationCode user = Some code →
           (r.1 = replyCodeExpired ↔ now > expiryInstant user)
           ∧ (∀ expires, User.codeExpires user = Some expires →
                ((now ≤ expires)%Z → r.1 = replyVerified)
                ∧ (now = expires + 1 → r.1 = replyCodeExpired))
           ∧ (r.1 = replyVerified →
                ∃ user', findByEmail email r.2 = Some user'
                  ∧ r.2 = saveUser user' db
                  ∧ User.isVerified user' = true
                  ∧ User.verificationCode user' = Some code
                  ∧ User.codeExpires user' = User.codeExpires user)).
Proof.
  intros Hemail Hcode. cbv zeta. unfold verifyCode. simpl.
  rewrite !bool_decide_eq_false_2 by done. simpl.
  destruct (findByEmail email db) as [user|] eqn:Hfind.
  2:{ split; [done|]. split; [done|]. by intros user. }
  destruct (decide (User.verificationCode user ≠ Some code)) as [Hne|He].
  { split; [done|]. split; [done|]. intros ? [= <-].
    split; [done|]. by intros He. }
  apply dec_stable in He.
  destruct (decide (now > expiryInstant user)) as [Hlate|Hintime].
  { split; [done|]. split; [done|]. intros ? [= <-].
    split; [by split; [|intros []]|]. intros _.
    split; [done|]. split; [|done].
    intros expires Hexp. unfold expiryInstant in Hlate. rewrite Hexp in Hlate.
    simpl in Hlate. split; [lia|done]. }
  split; [done|]. split; [done|]. intros ? [= <-].
  split; [by split; [|intros []]|]. intros _.
  split; [by split|]. split.
  { intros expires Hexp. unfold expiryInstant in Hintime.
    rewrite Hexp in Hintime. simpl in Hintime. split; [done|lia]. }
  intros _. exists (User.set_isVerified true user). cbn [snd].
  split; [|done].
  apply findByEmail_Some in Hfind as Hu. destruct Hu as [_ Hu].
  by apply (findByEmail_saveUser _ _ user).
Qed.

(** C8, amended.  A request whose email or code is missing or empty is
    rejected with [Email and verification code are required] before any
    lookup, and changes nothing.  For a non-empty email and a non-empty
    code, [verifyCode] fails with [NotFound] exactly when no record
    exists for the email; otherwise with [InvalidCode] exactly when the
    stored code is not the submitted one; otherwise with [CodeExpired]
    exactly when [now > codeExpires], so that a matching code succeeds at
    every instant up to and including [codeExpires] and fails one
    millisecond later; a failure changes nothing, and on success the
    record is stored with [isVerified = true] and with the code and
    expiry it had. *)
Theorem verifyCode_outcomes now email code db :
  ((email = None ∨ email = Some "" ∨ code = None ∨ code = Some "") →
     verifyCode now email code db
     = (Fail 400 "Email and verification code are required", db))
  ∧ ∀ e c,
      email = Some e → code = Some c → e ≠ "" → c ≠ "" →
      let r := verifyCode now email code db in
      (r.1 = replyNotFound ↔ findByEmail e db = None)
      ∧ (r.1 ≠ replyVerified → r.2 = db)
      ∧ ∀ user, findByEmail e db = Some user →
          (r.1 = replyInvalidCode ↔ User.verificationCode user ≠ Some c)
          ∧ (User.verificationCode user = Some c →
               (r.1 = replyCodeExpired ↔ now > expiryInstant user)
               ∧ (∀ expires, User.codeExpires user = Some expires →
                    ((now ≤ expires)%Z → r.1 = replyVerified)
                    ∧ (now = expires + 1 → r.1 = replyCodeExpired))
               ∧ (r.1 = replyVerified →
                    ∃ user', findByEmail e r.2 = Some user'
                      ∧ r.2 = saveUser user' db
                      ∧ User.isVerified user' = true
                      ∧ User.verificationCode user' = Some c
                      ∧ User.codeExpires user' = User.codeExpires user)).
Proof.
  split.
  - unfold verifyCode.
    intros [-> | [-> | [-> | ->]]]; simpl; try done;
      by destruct (absent email).
  - intros e c -> -> He Hc. by apply verifyCode_cascade.
Qed.

Lemma verifyCode_outcomes_witness :
  (verifyCode (10 * msPerMinute) (Some "bob@example.org") (Some "123456")
     [pendingBob]).1 = replyVerified
  ∧ (verifyCode (10 * msPerMinute + 1) (Some "bob@example.org")
       (Some "123456") [pendingBob]).1 = replyCodeExpired
  ∧ verifyCode 1000 (Some "bob@example.org") None [pendingBob]
    = (Fail 400 "Email and verification code are required", [pendingBob]).
Proof.
  split; [|split].
  - destruct (proj2 (verifyCode_outcomes (10 * msPerMinute)
                       (Some "bob@example.org") (Some "123456") [pendingBob])
                "bob@example.org" "123456" eq_refl eq_refl)
      as (_ & _ & Hfound); [discriminate | discriminate |].
    destruct (Hfound pendingBob eq_refl) as [_ Hmatch].
    destruct (Hmatch eq_refl) as (_ & Hexp & _).
    apply (Hexp (10 * msPerMinute) eq_refl). lia.
  - destruct (proj2 (verifyCode_outcomes (10 * msPerMinute + 1)
                       (Some "bob@example.org") (Some "123456") [pendingBob])
                "bob@example.org" "123456" eq_refl eq_refl)
      as (_ & _ & Hfound); [discriminate | discriminate |].
    destruct (Hfound pendingBob eq_refl) as [_ Hmatch].
    destruct (Hmatch eq_refl) as (_ & Hexp & _).
    apply (Hexp (10 * msPerMinute) eq_refl). reflexivity.
  - apply (proj1 (verifyCode_outcomes 1000 (Some "bob@example.org") None
                    [pendingBob])).
    right. right. left. reflexivity.
Defined.

(** ** The most productive day *)

Lemma getDay_lt_7 tz ms : (getDay tz ms < 7)%nat.
Proof.
  unfold getDay.
  pose proof (Z.mod_pos_bound ((ms + tz) `div` msPerDay + 4) 7 eq_refl).
  lia.
Qed.

Lemma completionsOn_cons tz d x l :
  completionsOn tz d (x :: l)
  = ((if decide (completionDay tz x = Some d) then 1 else 0)
     + completionsOn tz d l)%nat.
Proof. unfold completionsOn. rewrite filter_cons. by case_decide. Qed.

Lemma tallyTodo_countOf tz acc x d :
  countOf (completionByDay (tallyTodo tz acc x)) d
  = (countOf (completionByDay acc) d
     + if decide (completionDay tz x = Some d) then 1 else 0)%nat.
Proof.
  unfold tallyTodo, completionDay, countOf.
  destruct (Todo.completedAt x) as [doneAt|], (Todo.createdAt x) as [madeAt|];
    simpl; try lia.
  destruct (decide (getDay tz doneAt = d)) as [->|Hd].
  - rewrite lookup_insert_eq, decide_True by done. simpl. lia.
  - rewrite lookup_insert_ne, decide_False by congruence. lia.
Qed.

(** The histogram built by the loop holds, for each weekday, the number of
    completions on that day. *)
Lemma tally_countOf tz todos acc d :
  countOf (completionByDay (foldl (tallyTodo tz) acc todos)) d
  = (countOf (completionByDay acc) d + completionsOn tz d todos)%nat.
Proof.
  revert acc. induction todos as [|x todos IH]; intros acc; simpl.
  - unfold completionsOn. simpl. lia.
  - rewrite IH, tallyTodo_countOf, completionsOn_cons. lia.
Qed.

Lemma tally_positive tz todos acc :
  positiveEntries (completionByDay acc) →
  positiveEntries (completionByDay (foldl (tallyTodo tz) acc todos)).
Proof.
  revert acc. induction todos as [|x todos IH]; intros acc Hacc; simpl;
    [done|].
  apply IH. unfold tallyTodo.
  destruct (Todo.completedAt x) as [doneAt|], (Todo.createdAt x) as [madeAt|];
    simpl; try done.
  intros d c. destruct (decide (getDay tz doneAt = d)) as [->|Hd].
  - rewrite lookup_insert_eq. intros [= <-]. lia.
  - rewrite lookup_insert_ne by done. apply Hacc.
Qed.

Lemma elem_of_objectKeys byDay d :
  d ∈ objectKeys byDay ↔ is_Some (byDay !! d).
Proof.
  unfold objectKeys. rewrite merge_sort_Permutation.
  rewrite list_elem_of_fmap. split.
  - intros ([k c] & -> & H%elem_of_map_to_list). by exists c.
  - intros [c H]. exists (d, c). split; [done|].
    by apply elem_of_map_to_list.
Qed.

Lemma objectKeys_ascending byDay :
  StronglySorted Nat.le (objectKeys byDay) ∧ NoDup (objectKeys byDay).
Proof.
  unfold objectKeys. split.
  - apply StronglySorted_merge_sort; apply _.
  - rewrite merge_sort_Permutation. apply NoDup_fst_map_to_list.
Qed.

(** The scan over keys in ascending order, with strict [>]: the state
    after the keys [ks] bounds every count seen, and names the least key
    that reaches that bound. *)
Lemma scan_keys byDay ks :
  StronglySorted Nat.le ks → NoDup ks →
  let st := foldl (pickDay byDay) (0%nat, 0%nat) ks in
  (∀ d, d ∈ ks → (countOf byDay d ≤ st.2)%nat)
  ∧ ((st.1 = 0%nat ∧ st.2 = 0%nat)
     ∨ (st.1 ∈ ks ∧ countOf byDay st.1 = st.2 ∧ (0 < st.2)%nat
        ∧ ∀ d, d ∈ ks → countOf byDay d = st.2 → (st.1 ≤ d)%nat)).
Proof.
  induction ks as [|k ks IH] using rev_ind; intros Hsorted Hnodup.
  { simpl. split; [by intros d ?%elem_of_nil | by left]. }
  assert (∀ d, d ∈ ks → (d < k)%nat) as Hbelow.
  { intros d Hd.
    assert (d ≤ k)%nat
      by (eapply StronglySorted_app_1_elem_of; [done..|by left]).
    assert (d ≠ k); [|lia]. intros ->.
    apply NoDup_app in Hnodup as (_ & Hdisj & _).
    apply (Hdisj k); [done | by left]. }
  destruct IH as [Hbound Hbest].
  { by eapply StronglySorted_app_1_l. }
  { by apply NoDup_app in Hnodup as (? & _ & _). }
  cbv zeta. rewrite foldl_snoc.
  destruct (foldl (pickDay byDay) (0%nat, 0%nat) ks) as [b h].
  unfold pickDay. fold (countOf byDay k). simpl in *.
  destruct (decide (h < countOf byDay k)%nat) as [Hmore|Hnot]; simpl.
  - split.
    + intros d [Hd| ->%list_elem_of_singleton]%elem_of_app; [|done].
      specialize (Hbound d Hd). lia.
    + right. split; [apply elem_of_app; right; by left|].
      split; [done|]. split; [lia|].
      intros d [Hd| ->%list_elem_of_singleton]%elem_of_app; [|done].
      specialize (Hbound d Hd). lia.
  - split.
    + intros d [Hd| ->%list_elem_of_singleton]%elem_of_app; [auto|lia].
    + destruct Hbest as [?|(Hin & Hc & Hpos & Hleast)]; [by left|].
      right. split; [apply elem_of_app; by left|].
      split; [done|]. split; [done|].
      intros d [Hd| ->%list_elem_of_singleton]%elem_of_app; [auto|].
      intros _. specialize (Hbelow b Hin). lia.
Qed.

Lemma histogram_counts tz todos d :
  countOf (completionByDay (tallyAll tz todos)) d = completionsOn tz d todos.
Proof. unfold tallyAll. by rewrite tally_countOf. Qed.

Lemma histogram_keys tz todos d :
  d ∈ objectKeys (completionByDay (tallyAll tz todos))
  ↔ (0 < completionsOn tz d todos)%nat.
Proof.
  rewrite elem_of_objectKeys, <- histogram_counts. unfold countOf.
  assert (positiveEntries (completionByDay (tallyAll tz todos))) as Hpos
    by (by apply tally_positive).
  split.
  - intros [c Hc]. rewrite Hc. simpl. by apply (Hpos d).
  - destruct (completionByDay (tallyAll tz todos) !! d); simpl; [eauto|lia].
Qed.

Lemma completionsOn_weekday tz d todos :
  (0 < completionsOn tz d todos)%nat → (d < 7)%nat.
Proof.
  unfold completionsOn. intros H.
  destruct (filter _ todos) as [|x l] eqn:E; [simpl in H; lia|].
  assert (x ∈ filter (λ x, completionDay tz x = Some d) todos) as Hx
    by (rewrite E; by left).
  apply list_elem_of_filter in Hx as [Hx _]. unfold completionDay in Hx.
  destruct (Todo.completedAt x), (Todo.createdAt x); try done.
  injection Hx as <-. apply getDay_lt_7.
Qed.

(** C9.  The reported [mostProductiveDay] is a weekday (0 = Sunday) whose
    number of completions, counted over the completed todos that have
    both timestamps, is the highest; among the weekdays that reach that
    number it is the one with the lowest index; it is 0 when there is no
    such completion. *)
Theorem most_productive_day_is_lowest_busiest tz completedTodos :
  let best := mostProductiveDay (analyse tz completedTodos) in
  ((best < 7)%nat
   ∧ ∀ d, (completionsOn tz d completedTodos
           ≤ completionsOn tz best completedTodos)%nat)
  ∧ (∀ d, completionsOn tz d completedTodos
          = completionsOn tz best completedTodos → (best ≤ d)%nat)
  ∧ ((∀ d, completionsOn tz d completedTodos = 0%nat) → best = 0%nat).
Proof.
  cbv zeta. unfold analyse. cbn [mostProductiveDay].
  unfold findMostProductiveDay.
  set (byDay := completionByDay (tallyAll tz completedTodos)).
  destruct (objectKeys_ascending byDay) as [Hsorted Hnodup].
  destruct (scan_keys byDay _ Hsorted Hnodup) as [Hbound Hbest].
  destruct (foldl (pickDay byDay) (0%nat, 0%nat) (objectKeys byDay))
    as [b h]. simpl in *.
  assert (∀ d, countOf byDay d = completionsOn tz d completedTodos) as Hcount
    by (intros d; apply histogram_counts).
  assert (∀ d, d ∈ objectKeys byDay
               ↔ (0 < completionsOn tz d completedTodos)%nat) as Hkeys
    by (intros d; apply histogram_keys).
  destruct Hbest as [[-> ->]|(Hin & Hc & Hpos & Hleast)].
  - assert (∀ d, completionsOn tz d completedTodos = 0%nat) as Hzero.
    { intros d.
      destruct (decide (0 < completionsOn tz d completedTodos)%nat)
        as [Hd|Hd]; [|lia].
      apply Hkeys, Hbound in Hd as Hle. rewrite Hcount in Hle. lia. }
    repeat split; try lia. intros d. rewrite !Hzero. lia.
  - rewrite Hcount in Hc.
    assert (∀ d, (completionsOn tz d completedTodos
                  ≤ completionsOn tz b completedTodos)%nat) as Hmax.
    { intros d.
      destruct (decide (0 < completionsOn tz d completedTodos)%nat)
        as [Hd|Hd]; [|lia].
      apply Hkeys, Hbound in Hd. rewrite Hcount in Hd. lia. }
    repeat split.
    + apply (completionsOn_weekday tz b completedTodos). lia.
    + done.
    + intros d Hd. apply Hleast.
      * apply Hkeys. lia.
      * rewrite Hcount. lia.
    + intros Hzero. specialize (Hzero b). lia.
Qed.

(** One completion on a Wednesday, entered first, and one on a Monday:
    the tie goes to Monday, the lower index. *)
Example tie_goes_to_lower_weekday :
  mostProductiveDay
    (analyse 0 [finished 1 wednesdayNoon; finished 2 mondayNoon]) = 1%nat.
Proof. vm_compute. reflexivity. Qed.

(** * Further properties of the routes *)

(** ** Dates *)

(** X14.  [tomorrow] lies strictly after the instant of planning and at most 24
    hours after it, is a local midnight, and falls on the weekday after
    that of the instant of planning. *)
Theorem startOfTomorrow_is_next_midnight tz now :
  now < startOfTomorrow tz now ≤ now + msPerDay
  ∧ (startOfTomorrow tz now + tz) `mod` msPerDay = 0
  ∧ getDay tz (startOfTomorrow tz now) = ((getDay tz now + 1) `mod` 7)%nat.
Proof.
  unfold startOfTomorrow, getDay.
  pose proof msPerDay_pos as Hpos.
  pose proof (Z.div_mod (now + tz) msPerDay) as Hdm.
  pose proof (Z.mod_pos_bound (now + tz) msPerDay Hpos) as Hr.
  set (q := (now + tz) `div` msPerDay) in *.
  split; [lia|]. split.
  - replace ((q + 1) * msPerDay - tz + tz) with ((q + 1) * msPerDay) by lia.
    apply Z.mod_mul. lia.
  - replace ((q + 1) * msPerDay - tz + tz) with ((q + 1) * msPerDay) by lia.
    rewrite Z.div_mul by lia.
    pose proof (Z.mod_pos_bound (q + 4) 7 eq_refl) as Ha.
    replace (q + 1 + 4) with ((q + 4) + 1) by lia.
    rewrite <- Zplus_mod_idemp_l.
    set (a := (q + 4) `mod` 7) in *.
    apply Nat2Z.inj. rewrite Nat2Z.inj_mod, Nat2Z.inj_add, !Z2Nat.id; [done|lia|].
    apply Z.mod_pos_bound. lia.
Qed.

(** ** The size of a plan *)

(** X13.  [optimalTaskCount] is never below 3, never decreases as the history
    grows, stays at 3 up to 14 completions, and from there on is one more
    than the completions per day of a 7-day week, rounded up. *)
Theorem optimalTaskCount_bounds n m :
  (3 ≤ optimalTaskCount n)%nat
  ∧ (n ≤ 7 * (optimalTaskCount n - 1))%nat
  ∧ ((n ≤ m)%nat → (optimalTaskCount n ≤ optimalTaskCount m)%nat)
  ∧ (optimalTaskCount n = 3%nat ↔ (n ≤ 14)%nat)
  ∧ ((14 < n)%nat → (7 * (optimalTaskCount n - 2) < n)%nat).
Proof.
  unfold optimalTaskCount.
  pose proof (Nat.div_mod_eq (n + 6) 7) as Hn.
  pose proof (Nat.mod_upper_bound (n + 6) 7) as Hn'.
  pose proof (Nat.div_mod_eq (m + 6) 7) as Hm.
  pose proof (Nat.mod_upper_bound (m + 6) 7) as Hm'.
  repeat split; lia.
Qed.

(** ** The token gate *)

(** X1.  [auth] lets a request through exactly when its [auth-token] header
    is a token signed with the server's secret, not yet expired; the user
    it passes on is the one the token is bound to.  Every refusal is a
    401: without a header (or with an empty one) [No token, authorization
    denied], otherwise [Token is not valid]. *)
Theorem auth_accepts_exactly {B} env now (req : Request B) :
  (∀ u, auth env now req = Next u
        ↔ ∃ expiresAt,
            authToken req = Some (Signed (verifySecret env) (id u) expiresAt)
            ∧ now < expiresAt)
  ∧ (∀ status message,
       auth env now req = Denied status message →
       status = 401%nat
       ∧ (message = "No token, authorization denied"
          ↔ tokenMissing (authToken req) = true)
       ∧ (message = "Token is not valid"
          ↔ tokenMissing (authToken req) = false)).
Proof.
  unfold auth. split.
  - intros [uid]. destruct (authToken req) as [[secret userId expiresAt|raw]|];
      simpl.
    + case_decide as Hok; simpl.
      * destruct Hok as [-> Hlt]. split.
        -- intros [= ->]. by exists expiresAt.
        -- intros (e & [= -> ->] & _). done.
      * split; [done|]. intros (e & [= -> -> ->] & Hlt). by destruct Hok.
    + case_bool_decide; simpl; (split; [done|]); by intros (e & ? & _).
    + split; [done|]. by intros (e & ? & _).
  - intros status message.
    destruct (tokenMissing (authToken req)).
    + intros [= <- <-]. by repeat split.
    + destruct (authToken req ≫= jwt_verify (verifySecret env) now);
        [done|]. intros [= <- <-]. by repeat split.
Qed.

(** X2.  A token issued by [register] or [login] is accepted by [auth], for
    the user it was issued to, at every instant up to one second before
    24 hours have passed, and refused as [Token is not valid] once 24
    hours have passed.  (Instants are in milliseconds and tokens count
    in seconds, hence the margin.) *)
Theorem issued_token_round_trip {B} env issuedAt userId token now (b : B) :
  jwt_sign env issuedAt userId = Some token →
  ((now + 1000 ≤ issuedAt + 24 * msPerHour)%Z →
     auth env now (mkReq (Some token) b) = Next (mkReqUser userId))
  ∧ ((issuedAt + 24 * msPerHour ≤ now)%Z →
     auth env now (mkReq (Some token) b) = Denied 401 "Token is not valid").
Proof.
  unfold jwt_sign, auth, verifySecret.
  destruct (JWT_SECRET env) as [secret|]; [|done].
  case_decide as Hs; [done|]. intros [= <-]. simpl.
  pose proof (Z.div_mod issuedAt 1000 ltac:(lia)) as Hdm.
  pose proof (Z.mod_pos_bound issuedAt 1000 ltac:(lia)) as Hr.
  split; intros Hnow.
  - rewrite decide_True; [done|]. split; [done|lia].
  - rewrite decide_False; [done|]. intros [_ ?]. lia.
Qed.

Lemma issued_token_round_trip_witness :
  auth sampleEnv (24 * msPerHour - 1000)
    (mkReq (Some (Signed "s3cret" 7 (24 * msPerHour))) tt)
  = Next (mkReqUser 7)
  ∧ auth sampleEnv (24 * msPerHour)
      (mkReq (Some (Signed "s3cret" 7 (24 * msPerHour))) tt)
    = Denied 401 "Token is not valid".
Proof.
  split.
  - apply (issued_token_round_trip sampleEnv 0 7%nat
             (Signed "s3cret" 7 (24 * msPerHour)) (24 * msPerHour - 1000) tt);
      [reflexivity | vm_compute; discriminate].
  - apply (issued_token_round_trip sampleEnv 0 7%nat
             (Signed "s3cret" 7 (24 * msPerHour)) (24 * msPerHour) tt);
      [reflexivity | vm_compute; discriminate].
Defined.

(** X3.  A todo call whose request [auth] refuses leaves the collection as it
    is, whichever route it addresses. *)
Theorem refused_calls_change_nothing env tz db c :
  (∀ u, callAuth env c ≠ Next u) → todoStep env tz db c = db.
Proof.
  intros Hno.
  destruct c as [now freshId req|now todoId req|now todoId req|now req];
    simpl in *; unfold postTodo, putTodo, deleteTodo, postPlanTomorrow, guarded;
    destruct (auth env now req) as [|u]; try done; by destruct (Hno u).
Qed.

Lemma refused_calls_change_nothing_witness :
  todoStep sampleEnv 0 twoOwners
    (CallDelete 1000 1 (mkReq (Some (Malformed "not-a-token")) tt))
  = twoOwners.
Proof.
  apply refused_calls_change_nothing. intros u. discriminate.
Defined.

(** ** Owner scoping of the todo routes *)

Lemma findOwned_None todoId userId db :
  (∀ x, x ∈ db → Todo._id x = todoId → Todo.user x ≠ userId) →
  findOwned todoId userId db = None.
Proof.
  intros H. unfold findOwned. rewrite filter_none; [done|].
  intros x Hx [Hi Hu]. by apply (H x).
Qed.

(** X4.  [PUT /:id] and [DELETE /:id] on a todo that does not exist or belongs
    to someone else both answer 404 [Todo not found] and change nothing. *)
Theorem foreign_todo_is_not_found env now todoId put del db u :
  auth env now put = Next u →
  auth env now del = Next u →
  (∀ x, x ∈ db → Todo._id x = todoId → Todo.user x ≠ id u) →
  putTodo env now todoId put db = (Message 404 "Todo not found", db)
  ∧ deleteTodo env now todoId del db = (Message 404 "Todo not found", db).
Proof.
  intros Hput Hdel Hforeign. unfold putTodo, deleteTodo.
  rewrite !(guarded_next _ _ _ _ _ u) by done.
  by rewrite findOwned_None.
Qed.

Lemma foreign_todo_is_not_found_witness :
  putTodo sampleEnv 1000 2 (mkReq (Some ownerToken) handOver) twoOwners
  = (Message 404 "Todo not found", twoOwners)
  ∧ deleteTodo sampleEnv 1000 2 (mkReq (Some ownerToken) tt) twoOwners
    = (Message 404 "Todo not found", twoOwners).
Proof.
  apply (foreign_todo_is_not_found sampleEnv 1000 2%nat
           (mkReq (Some ownerToken) handOver) (mkReq (Some ownerToken) tt)
           twoOwners (mkReqUser 10)).
  - reflexivity.
  - reflexivity.
  - apply (proj1 (Forall_forall
                    (λ x, Todo._id x = 2%nat → Todo.user x ≠ 10%nat)
                    twoOwners)).
    apply (bool_decide_unpack _). vm_compute. exact I.
Defined.

(** X5.  After a [POST /] that passes validation, [GET /] shows the creator
    what it showed before followed by the new todo, and shows every other
    user exactly what it showed before. *)
Theorem post_then_list env now now' freshId post list db u v :
  auth env now post = Next u →
  auth env now' list = Next v →
  validates (body post) = true →
  (getTodos env now' list (postTodo env now freshId post db).2).1
  = Todos (filter (λ x, Todo.user x = id v) db
           ++ if decide (id u = id v)
              then [newTodo freshId now u (body post)] else []).
Proof.
  intros Hpost Hlist Hvalid.
  assert ((postTodo env now freshId post db).2
          = db ++ [newTodo freshId now u (body post)]) as ->.
  { unfold postTodo. rewrite (guarded_next _ _ _ _ _ u) by done.
    by rewrite Hvalid. }
  unfold getTodos. rewrite (guarded_next _ _ _ _ _ v) by done. cbn [fst].
  rewrite filter_app, filter_cons, filter_nil. simpl.
  by destruct (decide (id u = id v)).
Qed.

Lemma post_then_list_witness :
  (getTodos sampleEnv 2000 (mkReq (Some ownerToken) tt)
     (postTodo sampleEnv 1000 3
        (mkReq (Some ownerToken)
           (PostBody.mk (Some "filed taxes") (Some true) None None None None
              None)) twoOwners).2).1
  = Todos [ urgentTodo 1 10;
            Todo.mk 3 10 "filed taxes" true None None Medium [] "general" ""
              (Some 1000) ].
Proof.
  exact (post_then_list sampleEnv 1000 2000 3%nat
           (mkReq (Some ownerToken)
              (PostBody.mk (Some "filed taxes") (Some true) None None None
                 None None))
           (mkReq (Some ownerToken) tt) twoOwners (mkReqUser 10)
           (mkReqUser 10) eq_refl eq_refl eq_refl).
Defined.

Lemma deleteById_filter i db :
  NoDup (ids db) → deleteById i db = filter (λ x, Todo._id x ≠ i) db.
Proof.
  unfold ids. induction db as [|x db IH]; csimpl; [done|].
  intros [Hx Hdb]%NoDup_cons. rewrite filter_cons.
  case_decide as Hi.
  - rewrite decide_False by (by intros ?).
    clear IH Hdb. induction db as [|y db IH]; csimpl; [done|].
    rewrite filter_cons, decide_True.
    + f_equal. apply IH. intros Hin. apply Hx. by right.
    + intros Hy. apply Hx. rewrite Hi, <- Hy. by left.
  - rewrite decide_True by done. f_equal. by apply IH.
Qed.

(** X6.  [DELETE /:id] by the owner removes the todo with that id and nothing
    else, the remaining todos keeping their order; a second [DELETE] of
    the same id, by anyone, answers 404. *)
Theorem delete_removes_one env now now' todoId req req' db u v todo :
  auth env now req = Next u →
  auth env now' req' = Next v →
  NoDup (ids db) →
  findOwned todoId (id u) db = Some todo →
  deleteTodo env now todoId req db
  = (Message 200 "Todo deleted", filter (λ x, Todo._id x ≠ todoId) db)
  ∧ (length (deleteTodo env now todoId req db).2 + 1 = length db)%nat
  ∧ deleteTodo env now' todoId req' (deleteTodo env now todoId req db).2
    = (Message 404 "Todo not found", (deleteTodo env now todoId req db).2).
Proof.
  intros Hreq Hreq' Hids Hfind.
  assert (deleteTodo env now todoId req db
          = (Message 200 "Todo deleted", filter (λ x, Todo._id x ≠ todoId) db))
    as Hdel.
  { unfold deleteTodo. rewrite (guarded_next _ _ _ _ _ u) by done.
    rewrite Hfind. by rewrite deleteById_filter. }
  rewrite Hdel. cbn [snd]. split; [done|]. split.
  - rewrite <- deleteById_filter by done.
    apply findOwned_Some in Hfind as (Hin & Hid & _).
    clear -Hin Hid. induction db as [|x db IH]; [by apply elem_of_nil in Hin|].
    simpl. case_decide as Hx; [lia|]. simpl.
    apply elem_of_cons in Hin as [->|Hin]; [done|]. rewrite IH by done. lia.
  - unfold deleteTodo. rewrite (guarded_next _ _ _ _ _ v) by done.
    rewrite findOwned_None; [done|].
    by intros x [? _]%list_elem_of_filter.
Qed.

Lemma delete_removes_one_witness :
  deleteTodo sampleEnv 1000 1 (mkReq (Some ownerToken) tt) twoOwners
  = (Message 200 "Todo deleted", [urgentTodo 2 20])
  ∧ deleteTodo sampleEnv 2000 1 (mkReq (Some ownerToken) tt) [urgentTodo 2 20]
    = (Message 404 "Todo not found", [urgentTodo 2 20]).
Proof.
  destruct (delete_removes_one sampleEnv 1000 2000 1%nat
              (mkReq (Some ownerToken) tt) (mkReq (Some ownerToken) tt)
              twoOwners (mkReqUser 10) (mkReqUser 10) (urgentTodo 1 10))
    as (Hfirst & _ & Hsecond).
  - reflexivity.
  - reflexivity.
  - apply (bool_decide_unpack _). vm_compute. exact I.
  - reflexivity.
  - split; [exact Hfirst | exact Hsecond].
Defined.

(** ** What [PUT /:id] touches *)

Lemma applyUpdate_id b x : Todo._id (applyUpdate b x) = Todo._id x.
Proof. reflexivity. Qed.

Lemma applyUpdate_empty x : applyUpdate PutBody.empty x = x.
Proof. by destruct x. Qed.

Lemma updateById_same i f db :
  (∀ x, f x = x) → updateById i f db = db.
Proof.
  intros Hf. induction db as [|x db IH]; simpl; [done|].
  case_decide; [by rewrite Hf | by rewrite IH].
Qed.

(** X7.  A [PUT /:id] by the owner rewrites the one todo with that id: the
    ids in the collection and their order stay as they were and every
    other todo is stored unchanged.  A body whose [completed] value
    cannot be cast to a boolean is answered 400 and changes nothing. *)
Theorem put_rewrites_one_todo env now todoId req db u todo :
  auth env now req = Next u →
  NoDup (ids db) →
  findOwned todoId (id u) db = Some todo →
  let b := stampCompletion now todo (body req) in
  let db' := (putTodo env now todoId req db).2 in
  (castsCleanly b = true →
     db' = (λ x, if decide (x = todo) then applyUpdate b todo else x) <$> db)
  ∧ (castsCleanly b = false →
     putTodo env now todoId req db = (Message 400 "Cast to Boolean failed", db))
  ∧ ids db' = ids db.
Proof.
  intros Hauth Hids Hfind. cbv zeta. unfold putTodo.
  rewrite (guarded_next _ _ _ _ _ u) by done. rewrite Hfind.
  apply findOwned_Some in Hfind as (Hin & Hid & _).
  destruct (castsCleanly (stampCompletion now todo (body req))); cbn [snd].
  - split; [|split; [done|]].
    + intros _. rewrite updateById_fmap by done. apply list_fmap_ext.
      intros i x Hx. apply list_elem_of_lookup_2 in Hx.
      destruct (decide (Todo._id x = todoId)) as [E|E].
      * assert (x = todo) as -> by (apply (unique_by_id db); congruence).
        by rewrite decide_True.
      * rewrite decide_False; [done|]. by intros ->.
    + apply ids_updateById, applyUpdate_id.
  - by repeat split.
Qed.

Lemma put_rewrites_one_todo_witness :
  (putTodo sampleEnv 2000 1 (mkReq (Some ownerToken) markDone) twoOwners).2
  = [ Todo.mk 1 10 "pay rent" true (Some 2000) None High [] "general" ""
        (Some 0);
      urgentTodo 2 20 ]
  ∧ putTodo sampleEnv 2000 1
      (mkReq (Some ownerToken)
         (PutBody.mk None (Some (JString "maybe")) None None None None None
            None None None)) twoOwners
    = (Message 400 "Cast to Boolean failed", twoOwners).
Proof.
  split.
  - refine (eq_trans
              (proj1 (put_rewrites_one_todo sampleEnv 2000 1%nat
                        (mkReq (Some ownerToken) markDone) twoOwners
                        (mkReqUser 10) (urgentTodo 1 10) _ _ _) _) _).
    + reflexivity.
    + apply (bool_decide_unpack _). vm_compute. exact I.
    + reflexivity.
    + reflexivity.
    + vm_compute. reflexivity.
  - refine (proj1 (proj2 (put_rewrites_one_todo sampleEnv 2000 1%nat
                            (mkReq (Some ownerToken)
                               (PutBody.mk None (Some (JString "maybe")) None
                                  None None None None None None None))
                            twoOwners (mkReqUser 10) (urgentTodo 1 10)
                            _ _ _)) _).
    + reflexivity.
    + apply (bool_decide_unpack _). vm_compute. exact I.
    + reflexivity.
    + reflexivity.
Defined.

(** X8.  A [PUT /:id] with an empty body changes nothing and returns the todo
    as stored. *)
Theorem put_empty_body_is_identity env now todoId token db u todo :
  auth env now (mkReq token PutBody.empty) = Next u →
  NoDup (ids db) →
  findOwned todoId (id u) db = Some todo →
  putTodo env now todoId (mkReq token PutBody.empty) db
  = (OneTodo 200 (Some todo), db).
Proof.
  intros Hauth Hids Hfind. unfold putTodo.
  rewrite (guarded_next _ _ _ _ _ u) by done. rewrite Hfind. cbn [body].
  assert (stampCompletion now todo PutBody.empty = PutBody.empty) as ->
    by reflexivity.
  change (castsCleanly PutBody.empty) with true. cbv iota.
  apply findOwned_Some in Hfind as (Hin & Hid & _).
  rewrite (findById_updateById _ _ _ todo) by done.
  by rewrite applyUpdate_empty, updateById_same by apply applyUpdate_empty.
Qed.

Lemma put_empty_body_is_identity_witness :
  putTodo sampleEnv 2000 1 (mkReq (Some ownerToken) PutBody.empty) twoOwners
  = (OneTodo 200 (Some (urgentTodo 1 10)), twoOwners).
Proof.
  apply (put_empty_body_is_identity sampleEnv 2000 1%nat (Some ownerToken)
           twoOwners (mkReqUser 10) (urgentTodo 1 10)).
  - reflexivity.
  - apply (bool_decide_unpack _). vm_compute. exact I.
  - reflexivity.
Defined.

(** ** Uniqueness of todo ids *)

Lemma ids_foldl_saveDueDate tm tasks db :
  ids (foldl (saveDueDate tm) db tasks) = ids db.
Proof.
  revert db. induction tasks as [|t tasks IH]; intros db; simpl; [done|].
  by rewrite IH, ids_saveDueDate.
Qed.

Lemma ids_deleteById i db : ids (deleteById i db) `sublist_of` ids db.
Proof.
  unfold ids. induction db as [|x db IH]; csimpl; [done|].
  case_decide; csimpl; [by apply sublist_cons | by apply sublist_skip].
Qed.

(** X9.  Every todo call keeps the ids of the collection pairwise distinct,
    provided the [_id] drawn for a new todo is not in use. *)
Theorem todo_ids_stay_unique env tz db c :
  NoDup (ids db) → freshCall db c → NoDup (ids (todoStep env tz db c)).
Proof.
  intros Hids Hfresh.
  destruct c as [now freshId req|now todoId req|now todoId req|now req];
    simpl in *; unfold postTodo, putTodo, deleteTodo, postPlanTomorrow, guarded;
    destruct (auth env now req) as [|u]; simpl; try done.
  - destruct (validates (body req)); simpl; [|done].
    unfold ids. rewrite fmap_app. apply NoDup_app. repeat split; [done| |].
    + intros i Hi [->|[]%elem_of_nil]%elem_of_cons. by apply Hfresh.
    + apply NoDup_singleton.
  - destruct (findOwned todoId (id u) db); simpl; [|done].
    destruct (castsCleanly _); simpl; [|done].
    by rewrite ids_updateById by apply applyUpdate_id.
  - destruct (findOwned todoId (id u) db); simpl; [|done].
    eapply sublist_NoDup; [|apply ids_deleteById]. done.
  - destruct (planTomorrow_store tz now u db) as [-> | ->]; [done|].
    by rewrite ids_foldl_saveDueDate.
Qed.

Lemma todo_ids_stay_unique_witness :
  NoDup (ids (todoStep sampleEnv 0 twoOwners
                (CallPost 1000 3
                   (mkReq (Some ownerToken)
                      (PostBody.mk (Some "filed taxes") None None None None
                         None None))))).
Proof.
  apply todo_ids_stay_unique.
  - apply (bool_decide_unpack _). vm_compute. exact I.
  - apply (bool_decide_unpack _). vm_compute. exact I.
Defined.

(** ** What a planning run touches *)

Lemma assignedTasks_kind u db x :
  x ∈ assignedTasks u db →
  Todo.priority x = High
  ∨ (Todo.priority x = Medium ∧ Todo.dueDate x = None).
Proof.
  unfold assignedTasks. intros [H|H]%elem_of_app.
  - left. by apply list_elem_of_filter in H as [? _].
  - right. apply subseteq_take in H.
    by apply list_elem_of_filter in H as [? _].
Qed.

(** X10.  [POST /plan-tomorrow] changes nothing but due dates, and only those
    of the requester's own pending todos that are high-priority or
    medium-priority without a due date: every other todo, the todos of
    every other user among them, is stored as it was, and no todo is
    added, removed or moved. *)
Theorem plan_changes_only_due_dates env tz now req db u :
  auth env now req = Next u →
  NoDup (ids db) →
  ∃ assigned : TodoDb,
    (postPlanTomorrow env tz now req db).2
    = (λ x, if decide (x ∈ assigned)
            then Todo.set_dueDate (Some (startOfTomorrow tz now)) x
            else x) <$> db
    ∧ ∀ x, x ∈ assigned →
        x ∈ db ∧ Todo.user x = id u ∧ Todo.completed x = false
        ∧ (Todo.priority x = High
           ∨ (Todo.priority x = Medium ∧ Todo.dueDate x = None)).
Proof.
  intros Hauth Hids. unfold postPlanTomorrow.
  rewrite (guarded_next _ _ _ _ _ u) by done.
  destruct (decide (filter (dueWithin (startOfTomorrow tz now) (id u)) db = []))
    as [Hguard|Hguard].
  - exists (assignedTasks u db). rewrite planTomorrow_run by done.
    cbv zeta. cbn [snd]. split.
    + rewrite foldl_saveDueDate by done. apply list_fmap_ext.
      intros i x Hx. apply list_elem_of_lookup_2 in Hx. simpl.
      destruct (decide (x ∈ assignedTasks u db)) as [Hin|Hin].
      * rewrite decide_True; [done|]. by apply assigned_by_id.
      * rewrite decide_False; [done|]. by rewrite assigned_by_id.
    + intros x Hx. pose proof (assignedTasks_pending _ _ _ Hx) as (?&?&?).
      pose proof (assignedTasks_kind _ _ _ Hx). done.
  - exists []. rewrite planTomorrow_guard by done. cbn [snd]. split.
    + rewrite <- (list_fmap_id db) at 1. by apply list_fmap_ext.
    + by intros x ?%elem_of_nil.
Qed.

Lemma plan_changes_only_due_dates_witness :
  ∃ assigned : TodoDb,
    (postPlanTomorrow sampleEnv 0 sampleMidnight planRequest backlog).2
    = (λ x, if decide (x ∈ assigned)
            then Todo.set_dueDate (Some (startOfTomorrow 0 sampleMidnight)) x
            else x) <$> backlog
    ∧ ∀ x, x ∈ assigned →
        x ∈ backlog ∧ Todo.user x = 10%nat ∧ Todo.completed x = false
        ∧ (Todo.priority x = High
           ∨ (Todo.priority x = Medium ∧ Todo.dueDate x = None)).
Proof.
  apply (plan_changes_only_due_dates sampleEnv 0 sampleMidnight planRequest
           backlog (mkReqUser 10)).
  - reflexivity.
  - apply (bool_decide_unpack _). vm_compute. exact I.
Defined.

(** ** The size of a plan, continued *)

(** X11.  A planning run that passes the guard reports as [taskCount] the
    number of the user's pending high-priority todos plus as many
    unscheduled medium-priority ones as are needed to reach
    [optimalTaskCount] and are available; so the plan exceeds
    [optimalTaskCount] only when the high-priority todos alone do. *)
Theorem plan_size env tz now req db u :
  auth env now req = Next u →
  NoDup (ids db) →
  filter (dueWithin (startOfTomorrow tz now) (id u)) db = [] →
  let completedTodos :=
    filter (λ x, Todo.completed x = true ∧ Todo.user x = id u) db in
  let pendingTodos :=
    filter (λ x, Todo.completed x = false ∧ Todo.user x = id u) db in
  let high := length (filter (λ x, Todo.priority x = High) pendingTodos) in
  let medium :=
    length (filter (λ x, Todo.priority x = Medium ∧ Todo.dueDate x = None)
              pendingTodos) in
  let optimal := optimalTaskCount (length completedTodos) in
  let taskCount := (high + Nat.min (optimal - high) medium)%nat in
  (postPlanTomorrow env tz now req db).1
  = Planned taskCount (analyse tz completedTodos)
  ∧ (taskCount ≤ Nat.max optimal high)%nat.
Proof.
  intros Hauth Hids Hguard. cbv zeta. unfold postPlanTomorrow.
  rewrite (guarded_next _ _ _ _ _ u) by done.
  rewrite planTomorrow_run by done. cbv zeta. cbn [fst].
  rewrite planned_count by done. unfold assignedTasks.
  rewrite length_app, length_take. split; [done|lia].
Qed.

Lemma plan_size_witness :
  (postPlanTomorrow sampleEnv 0 sampleMidnight planRequest backlog).1
  = Planned 3 (mkAnalysis 0 ∅ ∅).
Proof.
  refine (eq_trans
            (proj1 (plan_size sampleEnv 0 sampleMidnight planRequest backlog
                      (mkReqUser 10) _ _ _)) _).
  - reflexivity.
  - apply (bool_decide_unpack _). vm_compute. exact I.
  - reflexivity.
  - reflexivity.
Defined.

(** ** Statistics per category *)

Lemma tally_category tz todos acc c :
  completionByCategory (foldl (tallyTodo tz) acc todos) !! c
  = if decide (c ∈ inheritedNames) then completionByCategory acc !! c
    else
      match categoryTimes c todos with
      | [] => completionByCategory acc !! c
      | ts =>
          let entry :=
            default (mkStats 0 0) (completionByCategory acc !! c) in
          Some (mkStats (count entry + length ts) (totalTime entry + sumZ ts))
      end.
Proof.
  revert acc. induction todos as [|x todos IH]; intros acc.
  { simpl. by case_decide. }
  simpl. rewrite IH. unfold categoryTimes. csimpl.
  fold (categoryTimes c todos).
  unfold tallyTodo, completionTime.
  destruct (Todo.completedAt x) as [doneAt|],
           (Todo.createdAt x) as [madeAt|];
    try (by repeat case_decide).
  cbn [completionByCategory].
  destruct (decide (c ∈ inheritedNames)) as [Hc|Hc].
  - destruct (decide (categoryOrGeneral x ∈ inheritedNames)) as [|Hx];
      [done|].
    rewrite lookup_insert_ne; [done|]. intros E. by rewrite E in Hx.
  - destruct (decide (categoryOrGeneral x = c)) as [<-|Hx].
    + rewrite (decide_False (P := categoryOrGeneral x ∈ inheritedNames))
        by done.
      rewrite lookup_insert_eq. cbn [default count totalTime].
      destruct (categoryTimes (categoryOrGeneral x) todos) as [|t ts]; simpl.
      * do 2 f_equal; lia.
      * do 2 f_equal; lia.
    + destruct (decide (categoryOrGeneral x ∈ inheritedNames)); [done|].
      by rewrite lookup_insert_ne.
Qed.

(** X15.  The analysis bundle holds, for each category with at least one
    completion that has both timestamps, the number of such completions
    and the sum of their durations [completedAt - createdAt], and as
    average the quotient of the two; it holds no entry for any other
    category, and none for a category named like a property that every
    object inherits ([constructor], [__proto__], [toString], ...). *)
Theorem category_statistics tz completedTodos c :
  let times := categoryTimes c completedTodos in
  let bundle := analyse tz completedTodos in
  analysisByCategory bundle !! c
  = (if decide (c ∈ inheritedNames ∨ times = []) then None
     else Some (mkStats (length times) (sumZ times)))
  ∧ averageCompletionTimes bundle !! c
    = (if decide (c ∈ inheritedNames ∨ times = []) then None
       else Some (Qcanon.Qcdiv (Qc_of_Z (sumZ times))
                    (Qc_of_Z (Z.of_nat (length times))))).
Proof.
  cbv zeta. unfold analyse. cbn [analysisByCategory averageCompletionTimes].
  rewrite lookup_fmap. unfold tallyAll. rewrite tally_category.
  cbn [completionByCategory]. rewrite lookup_empty.
  destruct (decide (c ∈ inheritedNames)) as [Hc|Hc].
  { by rewrite !decide_True by (by left). }
  destruct (categoryTimes c completedTodos) as [|t ts] eqn:E.
  - by rewrite !decide_True by (by right).
  - rewrite !decide_False by (by intros [?|?]).
    simpl. split; [done|].
    unfold averageOf. cbn [count totalTime].
    destruct (decide (0 < S (length ts))%nat); [done|lia].
Qed.

(** Two chores done in 2 and 4 hours average 3 hours; an empty category
    is filed under [general]; a chore filed under [constructor] leaves no
    entry. *)
Example category_statistics_sample :
  averageCompletionTimes
    (analyse 0
       [ Todo.mk 1 10 "a" true (Some (2 * msPerHour)) None Low [] "" ""
           (Some 0);
         Todo.mk 2 10 "b" true (Some (5 * msPerHour)) None Low [] "general" ""
           (Some msPerHour);
         Todo.mk 3 10 "c" true None None Low [] "general" "" (Some 0);
         Todo.mk 4 10 "d" true (Some 4000) None Low [] "constructor" ""
           (Some 0) ])
  = {[ "general" := Qc_of_Z (3 * msPerHour) ]}.
Proof.
  apply map_eq. intros c.
  destruct (decide (c = "general")) as [->|Hc].
  - vm_compute. f_equal. apply Qcanon.Qc_is_canon. reflexivity.
  - rewrite lookup_singleton_ne by done.
    rewrite (proj2 (category_statistics 0 _ c)).
    apply decide_True.
    destruct (decide (c = "constructor")) as [->|Hc'].
    + left. apply (bool_decide_unpack _). vm_compute. exact I.
    + right. unfold categoryTimes. simpl. unfold categoryOrGeneral. simpl.
      rewrite !decide_False by done. done.
Qed.

(** ** Lookups in the user collection *)

Lemma head_filter_refine {A} (P Q : A → Prop) `{!∀ x, Decision (P x)}
    `{!∀ x, Decision (Q x)} (l : list A) u :
  head (filter P l) = Some u → (∀ x, Q x → P x) → Q u →
  head (filter Q l) = Some u.
Proof.
  intros Hhead Himp Hu. induction l as [|x l IH]; [done|].
  rewrite filter_cons in Hhead |- *.
  destruct (decide (P x)) as [Hp|Hp].
  - simpl in Hhead. injection Hhead as ->. by rewrite decide_True.
  - rewrite decide_False by (intros ?; by apply Hp, Himp). by apply IH.
Qed.

Lemma head_filter_is_Some {A} (P : A → Prop) `{!∀ x, Decision (P x)}
    (l : list A) x :
  x ∈ l → P x → is_Some (head (filter P l)).
Proof.
  intros Hx Hp.
  assert (x ∈ filter P l) as Hin by (by apply list_elem_of_filter).
  destruct (filter P l); [by apply elem_of_nil in Hin | by eexists].
Qed.

Lemma findByEmail_None e db :
  findByEmail e db = None ↔ ∀ x, x ∈ db → User.email x ≠ e.
Proof.
  unfold findByEmail. split.
  - intros Hnone x Hx He.
    destruct (head_filter_is_Some (λ x, User.email x = e) db x Hx He)
      as [? Hsome]. congruence.
  - intros Hall. by rewrite filter_none.
Qed.

Lemma findByEmail_app_new e db u :
  findByEmail e db = None → User.email u = e →
  findByEmail e (db ++ [u]) = Some u.
Proof.
  intros Hnone He.
  pose proof (proj1 (findByEmail_None e db) Hnone) as Hall.
  unfold findByEmail. rewrite filter_app, filter_none by done.
  by rewrite filter_cons, decide_True.
Qed.

(** ** Requesting a verification code *)

(** X16.  [POST /send-verification-code] for an address that has a verified
    record is refused and changes nothing.  For any other non-empty
    address the record of that address is stored unverified, with the new
    code and an expiry ten minutes ahead, keeping the password it had if
    any; this has happened even when the mail could not be sent and the
    reply is the 500. *)
Theorem send_code_outcomes now code freshId mailSent e db :
  e ≠ "" →
  let r := sendVerificationCode now code freshId mailSent (Some e) db in
  ((∃ x, x ∈ db ∧ User.email x = e ∧ User.isVerified x = true) →
     r = (Fail 400
            "An account with this email already exists and is verified", db))
  ∧ ((∀ x, x ∈ db → User.email x = e → User.isVerified x = false) →
     r.1 = (if mailSent then Ok "Verification code sent to your email"
            else Fail 500
                   "Failed to send verification code. Please try again.")
     ∧ ∃ u, findByEmail e r.2 = Some u
            ∧ User.isVerified u = false
            ∧ User.verificationCode u = Some code
            ∧ User.codeExpires u = Some (now + 10 * msPerMinute)
            ∧ User.password u = findByEmail e db ≫= User.password).
Proof.
  intros He. cbv zeta. unfold sendVerificationCode. simpl.
  rewrite bool_decide_eq_false_2 by done. split.
  - intros (x & Hx & Hxe & Hxv).
    destruct (head_filter_is_Some
                (λ x, User.email x = e ∧ User.isVerified x = true) db x Hx)
      as [y ->]; done.
  - intros Hall. rewrite filter_none.
    2:{ intros x Hx [Hxe Hxv]. specialize (Hall x Hx Hxe). congruence. }
    simpl. split; [by destruct mailSent|].
    destruct (findByEmail e db) as [x|] eqn:Hfind.
    + eexists. split.
      * assert ((if mailSent return AuthReply * UserDb then _ else _).2
                = saveUser (User.set_isVerified false
                              (User.set_verification (Some code)
                                 (Some (now + 10 * msPerMinute)) x)) db) as ->
          by (by destruct mailSent).
        apply (findByEmail_saveUser _ _ x); [done| |done].
        by apply findByEmail_Some in Hfind as [_ ?].
      * done.
    + eexists. split.
      * assert ((if mailSent return AuthReply * UserDb then _ else _).2
                = db ++ [User.mk freshId None e None false (Some code)
                           (Some (now + 10 * msPerMinute)) None None now])
          as -> by (by destruct mailSent).
        by apply findByEmail_app_new.
      * done.
Qed.

Lemma send_code_outcomes_witness :
  (sendVerificationCode 5000 "222222" 9 false (Some "bob@example.org")
     [pendingBob]).1
  = Fail 500 "Failed to send verification code. Please try again."
  ∧ ∃ u, findByEmail "bob@example.org"
           (sendVerificationCode 5000 "222222" 9 false
              (Some "bob@example.org") [pendingBob]).2 = Some u
         ∧ User.isVerified u = false
         ∧ User.verificationCode u = Some "222222"
         ∧ User.codeExpires u = Some (5000 + 10 * msPerMinute)
         ∧ User.password u = None.
Proof.
  apply (proj2 (send_code_outcomes 5000 "222222" 9%nat false
                  "bob@example.org" [pendingBob] ltac:(discriminate))).
  apply (proj1 (Forall_forall
                  (λ x, User.email x = "bob@example.org"
                        → User.isVerified x = false) [pendingBob])).
  apply (bool_decide_unpack _). vm_compute. exact I.
Defined.

(** ** From a verification request to a session *)

(** X19.  For an address without a record: once the code has been requested,
    verifying it no later than ten minutes afterwards succeeds,
    registration then succeeds with a token for the new user, and from
    then on [login] with the registered password returns a token for
    the same user, while a password that differs from it within the 72
    bytes [bcrypt] reads is refused. *)
Theorem signup_flow env secret t0 t1 t2 t3 code freshId mailSent e name pw db :
  JWT_SECRET env = Some secret → secret ≠ "" →
  e ≠ "" → code ≠ "" → name ≠ "" → pw ≠ "" →
  findByEmail e db = None →
  (t1 ≤ t0 + 10 * msPerMinute)%Z →
  let db1 :=
    (sendVerificationCode t0 code freshId mailSent (Some e) db).2 in
  let verified := verifyCode t1 (Some e) (Some code) db1 in
  let registered :=
    register env t2 (Some name) (Some e) (Some pw) verified.2 in
  let summary := mkSummary freshId (Some name) e in
  verified.1 = Ok "Email verified successfully"
  ∧ (∃ token, jwt_sign env t2 freshId = Some token
              ∧ registered.1 = Session 201 token summary)
  ∧ (∃ token, jwt_sign env t3 freshId = Some token
              ∧ login env t3 e pw registered.2
                = (Session 200 token summary, registered.2))
  ∧ ∀ other, bcryptKey other ≠ bcryptKey pw →
      login env t3 e other registered.2
      = (Fail 400 "Invalid credentials", registered.2).
Proof.
  intros Hsecret Hs He Hcode Hname Hpw Hnone Htime. cbv zeta.
  set (u0 := User.mk freshId None e None false (Some code)
               (Some (t0 + 10 * msPerMinute)) None None t0).
  assert ((sendVerificationCode t0 code freshId mailSent (Some e) db).2
          = db ++ [u0]) as ->.
  { unfold sendVerificationCode. simpl.
    rewrite bool_decide_eq_false_2 by done.
    pose proof (proj1 (findByEmail_None e db) Hnone) as Hall.
    rewrite filter_none by (intros x Hx [Hxe _]; by apply (Hall x)).
    simpl. rewrite Hnone. by destruct mailSent. }
  assert (findByEmail e (db ++ [u0]) = Some u0) as Hf0
    by (by apply findByEmail_app_new).
  set (u1 := User.set_isVerified true u0).
  assert (verifyCode t1 (Some e) (Some code) (db ++ [u0])
          = (Ok "Email verified successfully", saveUser u1 (db ++ [u0])))
    as ->.
  { unfold verifyCode. simpl. rewrite !bool_decide_eq_false_2 by done. simpl.
    rewrite Hf0. simpl. rewrite decide_False by (by intros ?).
    rewrite decide_False; [done|]. unfold expiryInstant. simpl. lia. }
  cbn [fst snd]. split; [done|].
  assert (findByEmail e (saveUser u1 (db ++ [u0])) = Some u1) as Hf1
    by (by apply (findByEmail_saveUser _ _ u0)).
  set (u2 := User.set_verification None None
               (User.set_password (Bcrypt pw) (User.set_name name u1))).
  assert (register env t2 (Some name) (Some e) (Some pw)
            (saveUser u1 (db ++ [u0]))
          = (Session 201
               (Signed secret freshId
                  (t2 `div` 1000 * 1000 + 24 * msPerHour))
               (mkSummary freshId (Some name) e),
             saveUser u2 (saveUser u1 (db ++ [u0])))) as ->.
  { unfold register. simpl. rewrite !bool_decide_eq_false_2 by done. simpl.
    rewrite Hf1. simpl. unfold jwt_sign. rewrite Hsecret.
    by rewrite decide_False. }
  cbn [fst snd].
  assert (∀ t, jwt_sign env t freshId
               = Some (Signed secret freshId
                         (t `div` 1000 * 1000 + 24 * msPerHour))) as Hsign.
  { intros t. unfold jwt_sign. rewrite Hsecret. by rewrite decide_False. }
  split; [by eexists|].
  assert (findByEmail e (saveUser u2 (saveUser u1 (db ++ [u0]))) = Some u2)
    as Hf2 by (by apply (findByEmail_saveUser _ _ u1)).
  split.
  - eexists. split; [apply Hsign|].
    unfold login. rewrite Hf2. simpl. rewrite bool_decide_eq_true_2 by done.
    unfold jwt_sign. rewrite Hsecret. by rewrite decide_False.
  - intros other Hother. unfold login. rewrite Hf2. simpl.
    by rewrite bool_decide_eq_false_2 by (by intros ?).
Qed.

(** [bcrypt] reads 72 bytes: passwords that agree on them are the same to
    [bcrypt.compare]; a shorter password is told apart by its
    terminator. *)
Example bcrypt_reads_72_bytes :
  bcrypt_compare
    "0123456789012345678901234567890123456789012345678901234567890123456789pqX"
    (Bcrypt
       "0123456789012345678901234567890123456789012345678901234567890123456789pqY")
  = true
  ∧ bcrypt_compare "tr0ub4dor" (Bcrypt "tr0ub4dor&3") = false
  ∧ bcrypt_compare "tr0ub4dor" (Bcrypt "tr0ub4dor") = true.
Proof. vm_compute. done. Qed.

Lemma signup_flow_witness :
  (verifyCode 60000 (Some "carol@example.org") (Some "314159")
     (sendVerificationCode 0 "314159" 5 true (Some "carol@example.org")
        [alice]).2).1
  = Ok "Email verified successfully"
  ∧ ∃ token,
      jwt_sign sampleEnv 200000 5 = Some token
      ∧ login sampleEnv 200000 "carol@example.org" "tr0ub4dor"
          (register sampleEnv 120000 (Some "Carol")
             (Some "carol@example.org") (Some "tr0ub4dor")
             (verifyCode 60000 (Some "carol@example.org") (Some "314159")
                (sendVerificationCode 0 "314159" 5 true
                   (Some "carol@example.org") [alice]).2).2).2
        = (Session 200 token
             (mkSummary 5 (Some "Carol") "carol@example.org"),
           (register sampleEnv 120000 (Some "Carol")
              (Some "carol@example.org") (Some "tr0ub4dor")
              (verifyCode 60000 (Some "carol@example.org") (Some "314159")
                 (sendVerificationCode 0 "314159" 5 true
                    (Some "carol@example.org") [alice]).2).2).2).
Proof.
  destruct (signup_flow sampleEnv "s3cret" 0 60000 120000 200000 "314159"
              5%nat true "carol@example.org" "Carol" "tr0ub4dor" [alice])
    as (Hverified & _ & Hlogin & _).
  - reflexivity.
  - discriminate.
  - discriminate.
  - discriminate.
  - discriminate.
  - discriminate.
  - reflexivity.
  - vm_compute. discriminate.
  - split; [exact Hverified | exact Hlogin].
Defined.

(** ** Refusals of [register] and [login] *)

(** X20.  [register] with all three fields answers 400 and changes nothing
    when the address has no record or an unverified one ([Email
    verification required]) and when the record already has a password
    ([User already exists], also for an unverified record). *)
Theorem register_refusals env now name e pw db :
  name ≠ "" → e ≠ "" → pw ≠ "" →
  let r := register env now (Some name) (Some e) (Some pw) db in
  (findByEmail e db = None →
     r = (Fail 400
            "Email verification required. Please verify your email first.",
          db))
  ∧ ∀ user, findByEmail e db = Some user →
      (is_Some (User.password user) →
         r = (Fail 400 "User already exists", db))
      ∧ (User.password user = None → User.isVerified user = false →
         r = (Fail 400
                "Email verification required. Please verify your email first.",
              db)).
Proof.
  intros Hname He Hpw. cbv zeta. unfold register. simpl.
  rewrite !bool_decide_eq_false_2 by done. simpl. split.
  - by intros ->.
  - intros user ->. split.
    + intros Hsome. by rewrite bool_decide_eq_true_2.
    + intros Hnone Hunverified.
      rewrite bool_decide_eq_false_2 by (rewrite Hnone; by intros [? ?]).
      by rewrite Hunverified.
Qed.

(** X22.  [login] never changes the user collection, and it opens a session
    only for a record of that address that is verified and whose password
    agrees with the one submitted on the 72 bytes [bcrypt] reads; the
    token is then the one [jwt.sign] issues for that record's [_id]. *)
Theorem login_is_sound env now e pw db :
  (login env now e pw db).2 = db
  ∧ ∀ status token summary,
      (login env now e pw db).1 = Session status token summary →
      ∃ user stored,
        findByEmail e db = Some user
        ∧ User.isVerified user = true
        ∧ User.password user = Some (Bcrypt stored)
        ∧ bcryptKey stored = bcryptKey pw
        ∧ status = 200%nat
        ∧ jwt_sign env now (User._id user) = Some token
        ∧ summary = mkSummary (User._id user) (User.name user) e.
Proof.
  unfold login.
  destruct (findByEmail e db) as [user|] eqn:Hfind; [|by split].
  apply findByEmail_Some in Hfind as [_ Hemail].
  destruct (User.password user) as [[plain]|] eqn:Hpass; [|by split].
  destruct (User.isVerified user) eqn:Hver; simpl; [|by split].
  case_bool_decide as Hpw; [|by split].
  destruct (jwt_sign env now (User._id user)) as [issued|] eqn:Hsign;
    [|by split].
  split; [done|].
  intros status token summary [= <- <- <-].
  exists user, plain. by rewrite Hemail.
Qed.

Lemma register_refusals_witness :
  register sampleEnv 1000 (Some "Bob") (Some "bob@example.org") (Some "pw")
    [pendingBob]
  = (Fail 400 "Email verification required. Please verify your email first.",
     [pendingBob])
  ∧ register sampleEnv 1000 (Some "Eve") (Some "alice@example.org")
      (Some "pw") [alice]
    = (Fail 400 "User already exists", [alice]).
Proof.
  split.
  - apply (proj2 (register_refusals sampleEnv 1000 "Bob" "bob@example.org"
                    "pw" [pendingBob] ltac:(discriminate) ltac:(discriminate)
                    ltac:(discriminate)) pendingBob eq_refl);
      reflexivity.
  - apply (proj2 (register_refusals sampleEnv 1000 "Eve" "alice@example.org"
                    "pw" [alice] ltac:(discriminate) ltac:(discriminate)
                    ltac:(discriminate)) alice eq_refl).
    by eexists.
Defined.

(** ** Writes to the user collection *)

Lemma userIds_saveUser v db : userIds (saveUser v db) = userIds db.
Proof.
  unfold userIds. induction db as [|x db IH]; csimpl; [done|].
  case_decide as E; csimpl; [by rewrite E | by rewrite IH].
Qed.

Lemma saveUser_fmap v db :
  NoDup (userIds db) →
  saveUser v db
  = (λ x, if decide (User._id x = User._id v) then v else x) <$> db.
Proof.
  unfold userIds. induction db as [|x db IH]; csimpl; [done|].
  intros [Hx Hdb]%NoDup_cons. case_decide as Hi.
  - f_equal. clear IH Hdb. induction db as [|y db IH]; csimpl; [done|].
    rewrite decide_False.
    + f_equal. apply IH. intros Hin. apply Hx. by right.
    + intros Hy. apply Hx. rewrite Hi, <- Hy. by left.
  - f_equal. by apply IH.
Qed.

Lemma unique_by_user_id db x y :
  NoDup (userIds db) → x ∈ db → y ∈ db → User._id x = User._id y → x = y.
Proof.
  unfold userIds. induction db as [|z db IH]; csimpl;
    [by intros _ ?%elem_of_nil|].
  intros [Hz Hdb]%NoDup_cons [->|Hx]%elem_of_cons [->|Hy]%elem_of_cons E.
  - done.
  - exfalso. apply Hz. rewrite E. by apply list_elem_of_fmap_2.
  - exfalso. apply Hz. rewrite <- E. by apply list_elem_of_fmap_2.
  - by apply IH.
Qed.

Lemma unique_by_email db x y :
  NoDup (emails db) → x ∈ db → y ∈ db → User.email x = User.email y → x = y.
Proof.
  unfold emails. induction db as [|z db IH]; csimpl;
    [by intros _ ?%elem_of_nil|].
  intros [Hz Hdb]%NoDup_cons [->|Hx]%elem_of_cons [->|Hy]%elem_of_cons E.
  - done.
  - exfalso. apply Hz. rewrite E. by apply list_elem_of_fmap_2.
  - exfalso. apply Hz. rewrite <- E. by apply list_elem_of_fmap_2.
  - by apply IH.
Qed.

Lemma emails_saveUser v db x :
  NoDup (userIds db) → x ∈ db →
  User._id v = User._id x → User.email v = User.email x →
  emails (saveUser v db) = emails db.
Proof.
  intros Hids Hx Hid Hemail. rewrite saveUser_fmap by done.
  unfold emails. rewrite <- list_fmap_compose. apply list_fmap_ext.
  intros i y Hy. apply list_elem_of_lookup_2 in Hy. simpl.
  case_decide as E; [|done].
  assert (y = x) as -> by (apply (unique_by_user_id db); congruence). done.
Qed.

Lemma elem_of_saveUser_same v db x :
  x ∈ db → User._id v = User._id x → v ∈ saveUser v db.
Proof.
  intros Hx Hid. induction db as [|z db IH]; [by apply elem_of_nil in Hx|].
  simpl. case_decide as E; [by left|]. right. apply IH.
  apply elem_of_cons in Hx as [->|Hx]; [congruence | done].
Qed.

Lemma elem_of_saveUser_other v db u :
  u ∈ db → User._id u ≠ User._id v → u ∈ saveUser v db.
Proof.
  intros Hu Hid. induction db as [|z db IH]; [done|].
  simpl. apply elem_of_cons in Hu as [->|Hu].
  - rewrite decide_False by done. by left.
  - case_decide; right; [done | by apply IH].
Qed.

(** Each credential call leaves the collection as it is, or rewrites one
    record into the same account, or appends a record for an address that
    had none. *)
Lemma authStep_shape env db c :
  authStep env db c = db
  ∨ (∃ x v, x ∈ db ∧ sameAccount x v ∧ authStep env db c = saveUser v db)
  ∨ (∃ new, authStep env db c = db ++ [new]
            ∧ findByEmail (User.email new) db = None
            ∧ (freshAuthCall db c → User._id new ∉ userIds db)).
Proof.
  destruct c as [now code freshId mailSent email|now email code
                |now name email password|now email password
                |now code mailSent email|now email code newPassword]; simpl.
  - unfold sendVerificationCode. destruct email as [e|]; [|by left].
    destruct (absent (Some e)); [by left|].
    destruct (head (filter _ db)) as [y|] eqn:Hverified; [by left|].
    destruct (findByEmail e db) as [x|] eqn:Hfind.
    + right. left. apply findByEmail_Some in Hfind as Hx.
      destruct Hx as [Hx He].
      exists x, (User.set_isVerified false
                   (User.set_verification (Some code)
                      (Some (now + 10 * msPerMinute)) x)).
      split; [done|]. split; [|by destruct mailSent].
      repeat split; try done. intros Hv. exfalso.
      destruct (head_filter_is_Some
                  (λ x, User.email x = e ∧ User.isVerified x = true) db x)
        as [? Hsome]; [done..|]. congruence.
    + right. right. eexists. split; [by destruct mailSent|]. by split.
  - unfold verifyCode. destruct (absent email || absent code); [by left|].
    destruct (findByEmail _ db) as [x|] eqn:Hfind; [|by left].
    repeat case_decide; try by left.
    right. left. apply findByEmail_Some in Hfind as [Hx _].
    exists x, (User.set_isVerified true x). by repeat split.
  - unfold register.
    destruct (absent name || absent email || absent password); [by left|].
    destruct (findByEmail _ db) as [x|] eqn:Hfind; [|by left].
    case_bool_decide as Hpass; [by left|].
    destruct (User.isVerified x) eqn:Hv; simpl; [|by left].
    right. left. apply findByEmail_Some in Hfind as [Hx _].
    eexists x, _. split; [done|]. split; [|by destruct (jwt_sign _ _ _)].
    repeat split; try done; simpl; by eexists.
  - left. unfold login. by repeat case_match.
  - unfold forgotPassword. destruct (absent email); [by left|].
    destruct (findByEmail _ db) as [x|] eqn:Hfind; [|by left].
    right. left. apply findByEmail_Some in Hfind as [Hx _].
    eexists x, _. split; [done|]. split; [|by destruct mailSent].
    by repeat split.
  - unfold resetPassword.
    destruct (absent email || absent code || absent newPassword); [by left|].
    destruct (head (filter _ db)) as [x|] eqn:Hfind; [|by left].
    right. left. apply head_Some_elem_of, list_elem_of_filter in Hfind as [_ Hx].
    eexists x, _. split; [done|]. split; [|done].
    repeat split; try done; simpl; by eexists.
Qed.

(** ** Invariants of the user collection *)

(** X24.  Every credential call keeps the [_id]s and the addresses of the
    collection pairwise distinct, provided the [_id] drawn for a record
    it may insert is not in use. *)
Theorem user_keys_stay_unique env db c :
  NoDup (userIds db) → NoDup (emails db) → freshAuthCall db c →
  NoDup (userIds (authStep env db c)) ∧ NoDup (emails (authStep env db c)).
Proof.
  intros Hids Hemails Hfresh.
  destruct (authStep_shape env db c)
    as [-> | [(x & v & Hx & (Hid & He & _) & ->)
             | (new & -> & Hnone & Hnew)]].
  - done.
  - by rewrite userIds_saveUser, (emails_saveUser v db x).
  - unfold userIds, emails. rewrite !fmap_app. split.
    + apply NoDup_app. repeat split; [done| |apply NoDup_singleton].
      intros i Hi [->|[]%elem_of_nil]%elem_of_cons. by apply Hnew.
    + apply NoDup_app. repeat split; [done| |apply NoDup_singleton].
      intros e (y & -> & Hy)%list_elem_of_fmap [E|[]%elem_of_nil]%elem_of_cons.
      by apply (proj1 (findByEmail_None _ _) Hnone y).
Qed.

Lemma user_keys_stay_unique_witness :
  NoDup (userIds (authStep sampleEnv [alice]
                    (CallSendCode 0 "123456" 8 true
                       (Some "bob@example.org"))))
  ∧ NoDup (emails (authStep sampleEnv [alice]
                     (CallSendCode 0 "123456" 8 true
                        (Some "bob@example.org")))).
Proof.
  apply user_keys_stay_unique.
  - apply (bool_decide_unpack _). vm_compute. exact I.
  - apply (bool_decide_unpack _). vm_compute. exact I.
  - apply (bool_decide_unpack _). vm_compute. exact I.
Defined.

(** X25.  No credential call deletes a record, changes its [_id], address or
    creation time, takes back its verification, or leaves it without a
    password once it had one. *)
Theorem accounts_are_never_degraded env db c u :
  NoDup (userIds db) → u ∈ db →
  ∃ u', u' ∈ authStep env db c ∧ sameAccount u u'.
Proof.
  intros Hids Hu.
  assert (sameAccount u u) as Hrefl by (by repeat split).
  destruct (authStep_shape env db c)
    as [-> | [(x & v & Hx & Hsame & ->) | (new & -> & _)]].
  - by exists u.
  - destruct (decide (User._id u = User._id x)) as [E|E].
    + assert (u = x) as -> by (by apply (unique_by_user_id db)).
      exists v. split; [|done].
      apply (elem_of_saveUser_same v db x); [done|]. by destruct Hsame.
    + exists u. split; [|done]. apply elem_of_saveUser_other; [done|].
      destruct Hsame as [-> _]. done.
  - exists u. split; [|done]. apply elem_of_app. by left.
Qed.

Lemma accounts_are_never_degraded_witness :
  ∃ u', u' ∈ authStep sampleEnv [alice]
               (CallSendCode 0 "123456" 8 true (Some "alice@example.org"))
        ∧ sameAccount alice u'.
Proof.
  apply accounts_are_never_degraded.
  - apply (bool_decide_unpack _). vm_compute. exact I.
  - apply (bool_decide_unpack _). vm_compute. exact I.
Defined.

(** ** Resetting a password *)

(** X23.  For an address that has a record, in a collection with distinct
    [_id]s and addresses: after [forgot-password], [reset-password] with
    the issued code is refused from 30 minutes on (the expiry itself
    included) and changes nothing; before that it succeeds, stores the
    new password and clears the reset code, so that no second reset goes
    through with any code, and a verified user then logs in with the new
    password. *)
Theorem reset_flow env t0 t1 t2 code mailSent e pw db user :
  NoDup (userIds db) → NoDup (emails db) →
  e ≠ "" → code ≠ "" → pw ≠ "" →
  findByEmail e db = Some user →
  let db1 := (forgotPassword t0 code mailSent (Some e) db).2 in
  let reset := resetPassword t1 (Some e) (Some code) (Some pw) db1 in
  ((t0 + 30 * msPerMinute ≤ t1)%Z →
     reset = (Fail 400 "Invalid or expired reset code", db1))
  ∧ (t1 < t0 + 30 * msPerMinute →
     reset.1 = Ok "Password has been reset successfully"
     ∧ (∃ user', findByEmail e reset.2 = Some user'
                 ∧ User.password user' = Some (Bcrypt pw)
                 ∧ User.resetCode user' = None
                 ∧ User.resetCodeExpires user' = None
                 ∧ User._id user' = User._id user
                 ∧ User.isVerified user' = User.isVerified user)
     ∧ (∀ code' pw', code' ≠ "" → pw' ≠ "" →
          resetPassword t2 (Some e) (Some code') (Some pw') reset.2
          = (Fail 400 "Invalid or expired reset code", reset.2))
     ∧ (User.isVerified user = true →
          (login env t2 e pw reset.2).1
          = match jwt_sign env t2 (User._id user) with
            | Some token =>
                Session 200 token
                  (mkSummary (User._id user) (User.name user) e)
            | None => Fail 500 "Server error"
            end)).
Proof.
  intros Hids Hemails He Hcode Hpw Hfind. cbv zeta.
  apply findByEmail_Some in Hfind as Huser. destruct Huser as [Hin Hemail].
  set (user1 := User.set_reset (Some code) (Some (t0 + 30 * msPerMinute)) user).
  assert ((forgotPassword t0 code mailSent (Some e) db).2 = saveUser user1 db)
    as ->.
  { unfold forgotPassword. simpl. rewrite bool_decide_eq_false_2 by done.
    rewrite Hfind. by destruct mailSent. }
  set (db1 := saveUser user1 db).
  assert (findByEmail e db1 = Some user1) as Hfind1
    by (by apply (findByEmail_saveUser _ _ user)).
  assert (NoDup (userIds db1)) as Hids1
    by (unfold db1; by rewrite userIds_saveUser).
  assert (NoDup (emails db1)) as Hemails1
    by (unfold db1; by rewrite (emails_saveUser user1 db user)).
  assert (user1 ∈ db1) as Hin1 by (by apply (elem_of_saveUser_same _ _ user)).
  split.
  - intros Hlate. unfold resetPassword. simpl.
    rewrite !bool_decide_eq_false_2 by done. simpl.
    rewrite filter_none; [done|].
    intros x Hx (Hxe & _ & Hxl).
    assert (x = user1) as ->
      by (apply (unique_by_email db1); [done..|by rewrite Hxe]).
    simpl in Hxl. lia.
  - intros Hintime.
    set (user2 := User.set_reset None None
                    (User.set_password (Bcrypt pw) user1)).
    set (db2 := saveUser user2 db1).
    assert (resetPassword t1 (Some e) (Some code) (Some pw) db1
            = (Ok "Password has been reset successfully", db2)) as ->.
    { unfold resetPassword. simpl.
      rewrite !bool_decide_eq_false_2 by done. simpl.
      rewrite (head_filter_refine (λ x, User.email x = e) _ db1 user1);
        [done|done| by intros x (? & _)|by repeat split; simpl; [|lia]]. }
    cbn [fst snd]. split; [done|].
    assert (findByEmail e db2 = Some user2) as Hfind2
      by (by apply (findByEmail_saveUser _ _ user1)).
    assert (NoDup (emails db2)) as Hemails2
      by (unfold db2; by rewrite (emails_saveUser user2 db1 user1)).
    assert (user2 ∈ db2) as Hin2
      by (by apply (elem_of_saveUser_same _ _ user1)).
    split; [by exists user2|]. split.
    + intros code' pw' Hcode' Hpw'. unfold resetPassword. simpl.
      rewrite !bool_decide_eq_false_2 by done. simpl.
      rewrite filter_none; [done|].
      intros x Hx (Hxe & Hxc & _).
      assert (x = user2) as ->
        by (apply (unique_by_email db2); [done..|by rewrite Hxe]).
      done.
    + intros Hverified. unfold login. rewrite Hfind2. simpl.
      rewrite Hverified. simpl. rewrite bool_decide_eq_true_2 by done.
      rewrite Hemail. by destruct (jwt_sign env t2 (User._id user)).
Qed.

Lemma reset_flow_witness :
  resetPassword (30 * msPerMinute) (Some "alice@example.org") (Some "654321")
    (Some "correct horse")
    (forgotPassword 0 "654321" true (Some "alice@example.org") [alice]).2
  = (Fail 400 "Invalid or expired reset code",
     (forgotPassword 0 "654321" true (Some "alice@example.org") [alice]).2)
  ∧ (login sampleEnv 5000 "alice@example.org" "correct horse"
       (resetPassword (30 * msPerMinute - 1) (Some "alice@example.org")
          (Some "654321") (Some "correct horse")
          (forgotPassword 0 "654321" true (Some "alice@example.org")
             [alice]).2).2).1
    = Session 200 (Signed "s3cret" 7 (5000 + 24 * msPerHour))
        (mkSummary 7 (Some "Alice") "alice@example.org").
Proof.
  split.
  - apply (proj1 (reset_flow sampleEnv 0 (30 * msPerMinute) 5000 "654321"
                    true "alice@example.org" "correct horse" [alice] alice
                    ltac:(apply (bool_decide_unpack _); vm_compute; exact I)
                    ltac:(apply (bool_decide_unpack _); vm_compute; exact I)
                    ltac:(discriminate) ltac:(discriminate)
                    ltac:(discriminate) eq_refl)).
    vm_compute. discriminate.
  - destruct (proj2 (reset_flow sampleEnv 0 (30 * msPerMinute - 1) 5000
                       "654321" true "alice@example.org" "correct horse"
                       [alice] alice
                       ltac:(apply (bool_decide_unpack _); vm_compute; exact I)
                       ltac:(apply (bool_decide_unpack _); vm_compute; exact I)
                       ltac:(discriminate) ltac:(discriminate)
                       ltac:(discriminate) eq_refl))
      as (_ & _ & _ & Hlogin); [reflexivity|].
    exact (Hlogin eq_refl).
Defined.

(** ** After registration *)

(** X21.  Once [register] has opened a session for an address, the
    verification code is gone: [verifyCode] for that address fails with
    [Invalid verification code] whatever code is submitted, and a second
    [register] fails with [User already exists]; neither changes
    anything. *)
Theorem registration_closes_verification env now name email password db
    status token summary :
  (register env now name email password db).1 = Session status token summary →
  ∀ now' code name' password',
    code ≠ "" → name' ≠ "" → password' ≠ "" →
    let db' := (register env now name email password db).2 in
    verifyCode now' email (Some code) db'
    = (Fail 400 "Invalid verification code", db')
    ∧ register env now' (Some name') email (Some password') db'
      = (Fail 400 "User already exists", db').
Proof.
  unfold register at 1 2 3.
  destruct (absent name || absent email || absent password) eqn:Habsent;
    [done|].
  apply orb_false_elim in Habsent as [Habsent _].
  apply orb_false_elim in Habsent as [_ Habsent].
  destruct (findByEmail (default "" email) db) as [user|] eqn:Hfind; [|done].
  case_bool_decide; [done|].
  destruct (User.isVerified user) eqn:Hv; simpl; [|done].
  set (user' := User.set_verification None None
                  (User.set_password (Bcrypt (default "" password))
                     (User.set_name (default "" name) user))).
  destruct (jwt_sign env now _); [|done].
  intros _ now' code name' password' Hcode Hname' Hpassword'. cbn [snd].
  assert (findByEmail (default "" email) (saveUser user' db) = Some user')
    as Hfind'.
  { apply (findByEmail_saveUser _ _ user); [done| |done].
    by apply findByEmail_Some in Hfind as [_ ?]. }
  split.
  - unfold verifyCode. rewrite Habsent. simpl.
    rewrite bool_decide_eq_false_2 by done. simpl. rewrite Hfind'.
    by rewrite decide_True.
  - unfold register. rewrite Habsent. simpl.
    rewrite !bool_decide_eq_false_2 by done. simpl. rewrite Hfind'.
    by rewrite bool_decide_eq_true_2.
Qed.

Lemma registration_closes_verification_witness :
  verifyCode 3000 (Some "bob@example.org") (Some "123456")
    (register sampleEnv 2000 (Some "Bob") (Some "bob@example.org")
       (Some "pw") [User.set_isVerified true pendingBob]).2
  = (Fail 400 "Invalid verification code",
     (register sampleEnv 2000 (Some "Bob") (Some "bob@example.org")
        (Some "pw") [User.set_isVerified true pendingBob]).2).
Proof.
  apply (registration_closes_verification sampleEnv 2000 (Some "Bob")
           (Some "bob@example.org") (Some "pw")
           [User.set_isVerified true pendingBob]
           201%nat (Signed "s3cret" 1 (2000 + 24 * msPerHour))
           (mkSummary 1 (Some "Bob") "bob@example.org")
           eq_refl 3000 "123456" "Bob" "pw");
    discriminate.
Defined.

(** ** Repeating and replacing a verification *)

Lemma saveUser_twice v db : saveUser v (saveUser v db) = saveUser v db.
Proof.
  induction db as [|x db IH]; simpl; [done|].
  case_decide as E; simpl.
  - by rewrite decide_True.
  - by rewrite decide_False, IH.
Qed.

(** X18.  A verification that succeeded can be repeated: as long as the code
    has not expired, [verifyCode] with the same code succeeds again and
    leaves the collection as the first success left it; after the expiry
    it fails with [CodeExpired] although the record is verified. *)
Theorem verify_is_repeatable now now' email code db user :
  (verifyCode now email code db).1 = Ok "Email verified successfully" →
  findByEmail (default "" email) db = Some user →
  let db' := (verifyCode now email code db).2 in
  ((now' ≤ expiryInstant user)%Z →
     verifyCode now' email code db' = (Ok "Email verified successfully", db'))
  ∧ (now' > expiryInstant user →
     verifyCode now' email code db'
     = (Fail 400 "Verification code has expired. Please request a new one.",
        db')).
Proof.
  intros Hok Hfind. cbv zeta.
  set (user' := User.set_isVerified true user).
  assert (absent email || absent code = false
          ∧ User.verificationCode user = code
          ∧ verifyCode now email code db
            = (Ok "Email verified successfully", saveUser user' db))
    as (Habsent & Hcode & ->).
  { revert Hok. unfold verifyCode.
    destruct (absent email || absent code); [done|].
    rewrite Hfind. case_decide as Hcode; [done|].
    by case_decide. }
  cbn [snd].
  assert (findByEmail (default "" email) (saveUser user' db) = Some user')
    as Hfind'.
  { apply (findByEmail_saveUser _ _ user); [done| |done].
    by apply findByEmail_Some in Hfind as [_ ?]. }
  unfold verifyCode. rewrite Habsent, Hfind'.
  rewrite decide_False by (by intros ?).
  assert (expiryInstant user' = expiryInstant user) as -> by done.
  split; intros Hnow'.
  - rewrite decide_False by lia.
    assert (User.set_isVerified true user' = user') as -> by done.
    by rewrite saveUser_twice.
  - by rewrite decide_True.
Qed.

Lemma verify_is_repeatable_witness :
  verifyCode 5000 (Some "bob@example.org") (Some "123456")
    (verifyCode 1000 (Some "bob@example.org") (Some "123456") [pendingBob]).2
  = (Ok "Email verified successfully",
     (verifyCode 1000 (Some "bob@example.org") (Some "123456")
        [pendingBob]).2).
Proof.
  apply (proj1 (verify_is_repeatable 1000 5000 (Some "bob@example.org")
                  (Some "123456") [pendingBob] pendingBob eq_refl eq_refl)).
  vm_compute. discriminate.
Defined.

Lemma elem_of_saveUser_inv v db x :
  x ∈ saveUser v db → x = v ∨ x ∈ db.
Proof.
  induction db as [|z db IH]; simpl; [by right|].
  case_decide.
  - intros [->|Hx]%elem_of_cons; [by left | right; by right].
  - intros [->|Hx]%elem_of_cons; [right; by left|].
    destruct (IH Hx); [by left | right; by right].
Qed.

(** What [POST /send-verification-code] leaves in the collection for an
    address without a verified record. *)
Lemma sendVerificationCode_stores now code freshId mailSent e db :
  e ≠ "" →
  (∀ x, x ∈ db → User.email x = e → User.isVerified x = false) →
  let db' := (sendVerificationCode now code freshId mailSent (Some e) db).2 in
  (∃ u, findByEmail e db' = Some u
        ∧ User.verificationCode u = Some code
        ∧ User.codeExpires u = Some (now + 10 * msPerMinute))
  ∧ ∀ x, x ∈ db' → User.email x = e → User.isVerified x = false.
Proof.
  intros He Hall. cbv zeta. unfold sendVerificationCode. simpl.
  rewrite bool_decide_eq_false_2 by done.
  rewrite filter_none.
  2:{ intros x Hx [Hxe Hxv]. specialize (Hall x Hx Hxe). congruence. }
  simpl. destruct (findByEmail e db) as [x|] eqn:Hfind.
  - set (v := User.set_isVerified false _).
    assert ((if mailSent return AuthReply * UserDb then _ else _).2
            = saveUser v db) as -> by (by destruct mailSent).
    split.
    + exists v. split; [|done].
      apply (findByEmail_saveUser _ _ x); [done| |done].
      by apply findByEmail_Some in Hfind as [_ ?].
    + intros y [->|Hy]%elem_of_saveUser_inv; [done | by apply Hall].
  - set (v := User.mk freshId _ _ _ _ _ _ _ _ _).
    assert ((if mailSent return AuthReply * UserDb then _ else _).2
            = db ++ [v]) as -> by (by destruct mailSent).
    split.
    + exists v. split; [|done]. by apply findByEmail_app_new.
    + intros y [Hy|[->|[]%elem_of_nil]%elem_of_cons]%elem_of_app;
        [by apply Hall | done].
Qed.

(** X17.  Requesting a new code replaces the previous one: after a second
    request for the same address the first code is refused as
    [Invalid verification code], and the second one is accepted until ten
    minutes after the second request. *)
Theorem new_code_replaces_old t0 t1 t2 old new id0 id1 mail0 mail1 e db :
  e ≠ "" → old ≠ "" → new ≠ "" → old ≠ new →
  (∀ x, x ∈ db → User.email x = e → User.isVerified x = false) →
  let db1 := (sendVerificationCode t0 old id0 mail0 (Some e) db).2 in
  let db2 := (sendVerificationCode t1 new id1 mail1 (Some e) db1).2 in
  verifyCode t2 (Some e) (Some old) db2
  = (Fail 400 "Invalid verification code", db2)
  ∧ ((t2 ≤ t1 + 10 * msPerMinute)%Z →
     (verifyCode t2 (Some e) (Some new) db2).1
     = Ok "Email verified successfully").
Proof.
  intros He Hold Hnew Hdiff Hall. cbv zeta.
  destruct (sendVerificationCode_stores t0 old id0 mail0 e db He Hall)
    as [_ Hall1].
  destruct (sendVerificationCode_stores t1 new id1 mail1 e _ He Hall1)
    as [(u & Hfind & Hcode & Hexp) _].
  cbv zeta in Hfind.
  set (db2 := (sendVerificationCode t1 new id1 mail1 (Some e) _).2) in *.
  unfold verifyCode. simpl. rewrite !bool_decide_eq_false_2 by done. simpl.
  rewrite Hfind, Hcode. split.
  - rewrite decide_True; [done|]. intros [= ?]. by apply Hdiff.
  - intros Htime. rewrite decide_False by (by intros ?).
    rewrite decide_False; [done|]. unfold expiryInstant. rewrite Hexp.
    simpl. lia.
Qed.

Lemma new_code_replaces_old_witness :
  verifyCode 70000 (Some "bob@example.org") (Some "123456")
    (sendVerificationCode 60000 "777777" 9 true (Some "bob@example.org")
       (sendVerificationCode 0 "123456" 1 true (Some "bob@example.org")
          [alice]).2).2
  = (Fail 400 "Invalid verification code",
     (sendVerificationCode 60000 "777777" 9 true (Some "bob@example.org")
        (sendVerificationCode 0 "123456" 1 true (Some "bob@example.org")
           [alice]).2).2).
Proof.
  apply (proj1 (new_code_replaces_old 0 60000 70000 "123456" "777777" 1%nat
                  9%nat true true "bob@example.org" [alice]
                  ltac:(discriminate) ltac:(discriminate) ltac:(discriminate)
                  ltac:(discriminate)
                  ltac:(apply (proj1 (Forall_forall
                           (λ x, User.email x = "bob@example.org"
                                 → User.isVerified x = false) [alice]));
                        apply (bool_decide_unpack _); vm_compute; exact I))).
Defined.

(** ** Which medium-priority tasks a plan takes *)

(** X12.  On a planning run that passes the guard, the user's pending
    medium-priority todos without a due date are taken in stored order:
    the one at position [i] among them is stored with [dueDate =
    tomorrow] when [i] is below the number of additional tasks needed,
    and is stored unchanged otherwise. *)
Theorem medium_tasks_in_stored_order env tz now req db u i x :
  auth env now req = Next u →
  NoDup (ids db) →
  filter (dueWithin (startOfTomorrow tz now) (id u)) db = [] →
  let completedTodos :=
    filter (λ x, Todo.completed x = true ∧ Todo.user x = id u) db in
  let pendingTodos :=
    filter (λ x, Todo.completed x = false ∧ Todo.user x = id u) db in
  let highPriorityTasks :=
    filter (λ x, Todo.priority x = High) pendingTodos in
  let mediumPriorityTasks :=
    filter (λ x, Todo.priority x = Medium ∧ Todo.dueDate x = None)
           pendingTodos in
  let needed :=
    (optimalTaskCount (length completedTodos) - length highPriorityTasks)%nat in
  mediumPriorityTasks !! i = Some x →
  let stored :=
    if decide (i < needed)%nat
    then Todo.set_dueDate (Some (startOfTomorrow tz now)) x else x in
  stored ∈ (postPlanTomorrow env tz now req db).2
  ∧ ∀ y, y ∈ (postPlanTomorrow env tz now req db).2 →
         Todo._id y = Todo._id x → y = stored.
Proof.
  intros Hauth Hids Hguard completedTodos pendingTodos highPriorityTasks
    mediumPriorityTasks needed Hlookup stored.
  unfold postPlanTomorrow. rewrite (guarded_next _ _ _ _ _ u) by done.
  rewrite planTomorrow_run by done. cbv zeta. cbn [snd].
  rewrite foldl_saveDueDate by done.
  assert (NoDup db) as Hdb by (by apply (NoDup_fmap_1 Todo._id)).
  pose proof (list_elem_of_lookup_2 _ _ _ Hlookup) as Hmed.
  apply list_elem_of_filter in Hmed as [[Hprio _] Hpend].
  assert (x ∈ db) as Hx by (by apply list_elem_of_filter in Hpend as [_ ?]).
  assert (Todo._id x ∈ ids (assignedTasks u db) ↔ (i < needed)%nat) as Hiff.
  { rewrite assigned_by_id by done. unfold assignedTasks.
    fold completedTodos pendingTodos. fold highPriorityTasks.
    fold mediumPriorityTasks. fold needed.
    rewrite elem_of_app, elem_of_take. split.
    - intros [[Hhigh _]%list_elem_of_filter|(j & Hj & Hlt)]; [congruence|].
      assert (i = j) as ->; [|done].
      eapply NoDup_lookup; [|done..]. by do 2 apply NoDup_filter.
    - intros Hlt. right. by exists i. }
  set (G := λ z, if decide (Todo._id z ∈ ids (assignedTasks u db))
                 then Todo.set_dueDate (Some (startOfTomorrow tz now)) z
                 else z).
  assert (G x = stored) as HG.
  { unfold G, stored. destruct (decide (Todo._id x ∈ _)) as [Hin|Hin].
    - rewrite decide_True; [done|]. by apply Hiff.
    - rewrite decide_False; [done|]. by rewrite <- Hiff. }
  rewrite <- HG. split.
  - by apply list_elem_of_fmap_2.
  - intros y (z & -> & Hz)%list_elem_of_fmap E.
    assert (z = x) as ->; [|done].
    apply (unique_by_id db); [done..|].
    rewrite <- E. unfold G. by case_decide.
Qed.

Lemma medium_tasks_in_stored_order_witness :
  chore 4 Medium None
  ∈ (postPlanTomorrow sampleEnv 0 sampleMidnight planRequest backlog).2
  ∧ Todo.set_dueDate (Some (startOfTomorrow 0 sampleMidnight))
      (chore 3 Medium None)
    ∈ (postPlanTomorrow sampleEnv 0 sampleMidnight planRequest backlog).2.
Proof.
  split.
  - apply (proj1 (medium_tasks_in_stored_order sampleEnv 0 sampleMidnight
                    planRequest backlog (mkReqUser 10) 2%nat
                    (chore 4 Medium None) eq_refl
                    ltac:(apply (bool_decide_unpack _); vm_compute; exact I)
                    eq_refl eq_refl)).
  - apply (proj1 (medium_tasks_in_stored_order sampleEnv 0 sampleMidnight
                    planRequest backlog (mkReqUser 10) 1%nat
                    (chore 3 Medium None) eq_refl
                    ltac:(apply (bool_decide_unpack _); vm_compute; exact I)
                    eq_refl eq_refl)).
Defined.
